(** * Bookmark Manager REST API: a shallow embedding of [server.js]

    The server is one Express application over one SQLite table.  Each
    route handler validates the request, issues parameterised statements
    through the [sqlite3] driver and answers with a status code and a
    JSON body.  The embedding keeps that shape:

    - request-body fields are JavaScript values ([value]); the fields
      modelled are the scalar ones a JSON body can carry (null, booleans,
      integers of magnitude below 10^15, strings) and [VUndefined] for
      a key that is absent.
      Array- and object-valued fields are outside the model: what the
      validation library and the driver make of them is not fixed by
      [server.js];
    - the table is a list of rows in insertion order, with the schema's
      PRIMARY KEY and NOT NULL constraints checked by the statements;
    - a handler is a state transformer over [world] (the table and a
      journal of the statements issued so far);
    - what the handler cannot decide itself (the identifier drawn by
      [uuidv4()], the clock, whether the driver reports a fault) comes
      in through an [env] record;
    - [app] puts the JSON middleware in front of the routes and the
      global error handler behind them;
    - the URL syntax check of the validation library is a parameter
      ([isURL]) of the section that holds the handlers. *)

From Stdlib Require Import String List Bool Arith ZArith Lia DecimalString.
Import ListNotations.
Open Scope string_scope.
Open Scope list_scope.

(** ** JavaScript values and the two operators the handlers use *)

Inductive value : Type :=
| VUndefined
| VNull
| VBool (b : bool)
| VNum (n : Z)
| VStr (s : string).

(** [String(n)] for an integer. *)
Definition string_of_Z (n : Z) : string := NilZero.string_of_int (Z.to_int n).

(** Truthiness, as [||] tests it. *)
Definition truthy (v : value) : bool :=
  match v with
  | VUndefined | VNull => false
  | VBool b => b
  | VNum n => negb (n =? 0)%Z
  | VStr s => negb (s =? "")
  end.

(** [a || b] *)
Definition js_or (a b : value) : value := if truthy a then a else b.

Definition nullish (v : value) : bool :=
  match v with
  | VUndefined | VNull => true
  | _ => false
  end.

(** [a ?? b] *)
Definition js_coalesce (a b : value) : value := if nullish a then b else a.

(** ** Objects: ordered association lists from property names to values *)

Definition js_object : Type := list (string * value).

(** [o.k]: [undefined] when the property is absent. *)
Fixpoint obj_get (k : string) (o : js_object) : value :=
  match o with
  | [] => VUndefined
  | (k', v) :: o' => if k' =? k then v else obj_get k o'
  end.

(** Defining property [k]: an existing property keeps its position. *)
Fixpoint obj_set (k : string) (v : value) (o : js_object) : js_object :=
  match o with
  | [] => [(k, v)]
  | (k', v') :: o' => if k' =? k then (k, v) :: o' else (k', v') :: obj_set k v o'
  end.

(** [{ ...a, ...b }] *)
Definition obj_spread (a b : js_object) : js_object :=
  fold_left (fun acc kv => obj_set (fst kv) (snd kv) acc) b a.

(** What [JSON.stringify] keeps of an object: properties whose value is
    [undefined] are dropped. *)
Definition json_of_object (o : js_object) : js_object :=
  filter (fun kv => match snd kv with VUndefined => false | _ => true end) o.

(** A property is supplied by a request body when the body has that key. *)
Definition supplied (k : string) (o : js_object) : bool :=
  existsb (fun kv => fst kv =? k) o.

(** ** The [bookmarks] table *)

(** A column value: NULL or TEXT. *)
Definition sqlval : Type := option string.

Record row : Type := mkRow {
  id : string;                    (* TEXT PRIMARY KEY *)
  url : string;                   (* TEXT NOT NULL *)
  title : string;                 (* TEXT NOT NULL *)
  description : sqlval;           (* TEXT *)
  created_at : string             (* TEXT NOT NULL *)
}.

(** The numbers the driver binds as INTEGER: those that survive the
    conversion to a 32-bit integer. *)
Definition int32 (n : Z) : bool :=
  (-2147483648 <=? n)%Z && (n <=? 2147483647)%Z.

(** Binding a JavaScript value to a statement parameter that lands in a
    TEXT column: [null] and [undefined] bind NULL, a boolean binds the
    integer 1 or 0, a number binds as INTEGER when it is an [int32] and
    as a double otherwise; the column's affinity stores an INTEGER as
    its decimal and a double with its fractional part ([2147483648] is
    stored as [2147483648.0]). *)
Definition bind_text (v : value) : sqlval :=
  match v with
  | VUndefined | VNull => None
  | VBool b => Some (if b then "1" else "0")
  | VNum n =>
      Some (if int32 n then string_of_Z n
            else String.append (string_of_Z n) ".0")
  | VStr s => Some s
  end.

(** A column value as the driver hands it back in a result row. *)
Definition of_sql (c : sqlval) : value :=
  match c with
  | None => VNull
  | Some s => VStr s
  end.

(** A result row of [SELECT *] as a JavaScript object. *)
Definition row_object (r : row) : js_object :=
  [ ("id", VStr (id r));
    ("url", VStr (url r));
    ("title", VStr (title r));
    ("description", of_sql (description r));
    ("created_at", VStr (created_at r)) ].

Inductive stmt : Type :=
| Insert (i : string)
| SelectAll
| SelectById (i : string)
| Update (i : string)
| Delete (i : string).

Record world : Type := mkWorld {
  table : list row;
  journal : list stmt
}.

Definition empty_world : world := mkWorld [] [].

(** What a request takes from outside the handler. *)
Record env : Type := mkEnv {
  uuid : string;        (* the result of [uuidv4()] *)
  now : string;         (* [new Date().toISOString()] *)
  fault1 : bool;        (* the driver fails the request's first statement *)
  fault2 : bool         (* the driver fails the request's second statement *)
}.

(** ** A state monad over [world] *)

Definition M (A : Type) : Type := world -> A * world.

Definition ret {A : Type} (a : A) : M A := fun w => (a, w).

Definition bind {A B : Type} (m : M A) (k : A -> M B) : M B :=
  fun w => let (a, w') := m w in k a w'.

Notation "x <- m ;; k" := (bind m (fun x => k))
  (at level 61, m at next level, right associativity).

(** The [(err, result)] pair a driver callback receives. *)
Inductive outcome (A : Type) : Type :=
| Ok (a : A)
| Err.
Arguments Ok {A} a.
Arguments Err {A}.

Definition issue (s : stmt) : M unit :=
  fun w => (tt, mkWorld (table w) (journal w ++ [s])).

Definition has_id (i : string) (r : row) : bool := id r =? i.

(** [INSERT INTO bookmarks (id, url, title, description, created_at)
     VALUES (?, ?, ?, ?, ?)] *)
Definition db_insert (fault : bool) (i : string) (u t d c : sqlval)
  : M (outcome unit) :=
  _ <- issue (Insert i) ;;
  fun w =>
    if fault then (Err, w)
    else match u, t, c with
         | Some u', Some t', Some c' =>
             if existsb (has_id i) (table w) then (Err, w)
             else (Ok tt, mkWorld (table w ++ [mkRow i u' t' d c']) (journal w))
         | _, _, _ => (Err, w)
         end.

(** [SELECT * FROM bookmarks] *)
Definition db_all (fault : bool) : M (outcome (list row)) :=
  _ <- issue SelectAll ;;
  fun w => if fault then (Err, w) else (Ok (table w), w).

(** [SELECT * FROM bookmarks WHERE id = ?], first row only. *)
Definition db_get (fault : bool) (i : string) : M (outcome (option row)) :=
  _ <- issue (SelectById i) ;;
  fun w => if fault then (Err, w) else (Ok (find (has_id i) (table w)), w).

Definition set_columns (i u t : string) (d : sqlval) (r : row) : row :=
  if has_id i r then mkRow (id r) u t d (created_at r) else r.

(** [UPDATE bookmarks SET url = ?, title = ?, description = ? WHERE id = ?] *)
Definition db_update (fault : bool) (u t d : sqlval) (i : string)
  : M (outcome unit) :=
  _ <- issue (Update i) ;;
  fun w =>
    if fault then (Err, w)
    else match u, t with
         | Some u', Some t' =>
             (Ok tt, mkWorld (map (set_columns i u' t' d) (table w)) (journal w))
         | _, _ => if existsb (has_id i) (table w) then (Err, w) else (Ok tt, w)
         end.

(** [DELETE FROM bookmarks WHERE id = ?]; the result is [this.changes]. *)
Definition db_delete (fault : bool) (i : string) : M (outcome nat) :=
  _ <- issue (Delete i) ;;
  fun w =>
    if fault then (Err, w)
    else (Ok (length (filter (has_id i) (table w))),
          mkWorld (filter (fun r => negb (has_id i r)) (table w)) (journal w)).

(** ** Responses *)

Record field_error : Type := mkError {
  field : string;
  msg : string
}.

Inductive res_body : Type :=
| Errors (es : list field_error)       (* [{ errors: errors.array() }] *)
| Message (m : string)                 (* [{ message: m }] *)
| Json (o : js_object)                 (* one record *)
| JsonArray (os : list js_object)      (* the list of records *)
| Empty.                               (* [send()] with no body *)

Record response : Type := mkResponse {
  status : nat;
  payload : res_body
}.

(** [res.status(c).json(o)] for a record [o]. *)
Definition json (c : nat) (o : js_object) : response :=
  mkResponse c (Json (json_of_object o)).

Definition database_error : response :=
  mkResponse 500 (Message "Database error").

Definition not_found : response :=
  mkResponse 404 (Message "Bookmark not found").

(** ** Validation chains *)

(** The validation library's conversion of a field value to the string
    its validators receive: [undefined] and [null] become the empty
    string, everything else is [String(value)]. *)
Definition to_string (v : value) : string :=
  match v with
  | VUndefined | VNull => ""
  | VBool b => if b then "true" else "false"
  | VNum n => string_of_Z n
  | VStr s => s
  end.

(** [.notEmpty()] *)
Definition notEmpty (v : value) : bool := negb (to_string v =? "").

Definition is_undefined (v : value) : bool :=
  match v with
  | VUndefined => true
  | _ => false
  end.

(** One chain [body(f)[.optional()].<test>().withMessage(m)] run on a
    request body: [.optional()] skips the test when the field is
    [undefined]. *)
Definition chain (optional : bool) (test : value -> bool) (f m : string)
    (req_body : js_object) : list field_error :=
  let v := obj_get f req_body in
  if optional && is_undefined v then []
  else if test v then [] else [mkError f m].

Definition isEmpty {A : Type} (l : list A) : bool :=
  match l with
  | [] => true
  | _ :: _ => false
  end.

Inductive request : Type :=
| POST (req_body : js_object)                 (* POST /bookmarks *)
| GET_all                                     (* GET /bookmarks *)
| GET (i : string)                            (* GET /bookmarks/:id *)
| PUT (i : string) (req_body : js_object)     (* PUT /bookmarks/:id *)
| DELETE (i : string).                        (* DELETE /bookmarks/:id *)

(** The value [PUT] gives field [f]: [f ?? bookmark.f] for a request
    body [b] and the row [r] that was found. *)
Definition merged (f : string) (b : js_object) (r : row) : value :=
  js_coalesce (obj_get f b) (obj_get f (row_object r)).

(** The record [POST] answers with, before serialisation. *)
Definition created_record (e : env) (b : js_object) : js_object :=
  [ ("id", VStr (uuid e));
    ("url", obj_get "url" b);
    ("title", obj_get "title" b);
    ("description", obj_get "description" b);
    ("created_at", VStr (now e)) ].

(** The table's integrity: no identifier occurs twice, and no row has an
    empty url or title. *)
Definition well_formed (t : list row) : Prop :=
  NoDup (map id t) /\ forall r, In r t -> url r <> "" /\ title r <> "".

(** What the JSON middleware ([express.json()], line 14) makes of a
    request's body before the route runs. *)
Inductive req_body : Type :=
| Body (o : js_object)       (* parsed to an object: [req.body] is [o] *)
| NoBody                     (* nothing parsed: [req.body] is [undefined] *)
| Malformed.                 (* not valid JSON: the middleware raises *)

Inductive route : Type :=
| CreateBookmark             (* POST /bookmarks *)
| ReadAll                    (* GET /bookmarks *)
| ReadById (i : string)      (* GET /bookmarks/:id *)
| UpdateBookmark (i : string)  (* PUT /bookmarks/:id *)
| DeleteBookmark (i : string). (* DELETE /bookmarks/:id *)

(** The answer of the global error handler (lines 187-190). *)
Definition internal_error : response :=
  mkResponse 500 (Message "Internal Server Error").

(** ** Data for the worked examples *)

(** A syntax check to run the handlers with on concrete requests. *)
Definition http_prefixed (s : string) : bool :=
  String.prefix "http://" s || String.prefix "https://" s.

Definition quiet (i t : string) : env := mkEnv i t false false.

Definition old_row : row :=
  mkRow "b0" "http://old.example" "Old" (Some "about") "2023-12-31T00:00:00.000Z".

Definition one_row : world := mkWorld [old_row] [Insert "b0"].

Definition good_body : js_object :=
  [("url", VStr "http://a.example"); ("title", VStr "A")].

Definition bad_body : js_object :=
  [("url", VStr "not-a-url"); ("title", VStr "")].

Definition full_body : js_object :=
  good_body ++ [("description", VStr "notes")].

Definition two_rows : world :=
  mkWorld
    [ old_row;
      mkRow "b1" "http://a.example" "A" None "2024-01-01T00:00:00.000Z" ]
    [Insert "b0"; Insert "b1"].

Definition a_session : list (env * request) :=
  [ (quiet "b1" "2024-01-01T00:00:00.000Z", POST good_body);
    (quiet "b1" "2024-01-02T00:00:00.000Z", POST good_body);
    (quiet "b2" "2024-01-03T00:00:00.000Z",
      POST [("url", VStr "https://b.example"); ("title", VNum 7);
            ("description", VStr "seven")]);
    (quiet "" "", PUT "b1" [("title", VStr "A2"); ("url", VNull)]);
    (quiet "" "", PUT "b1" [("title", VStr "A3")]);
    (quiet "" "", DELETE "b2");
    (quiet "" "", GET_all) ].

Section Server.

(** The validation library's URL syntax check. *)
Variable isURL : string -> bool.

(** The chains of [POST /bookmarks]. *)
Definition create_errors (req_body : js_object) : list field_error :=
  chain false (fun v => isURL (to_string v)) "url" "Invalid URL" req_body
  ++ chain false notEmpty "title" "Title is required" req_body.

(** The chains of [PUT /bookmarks/:id]. *)
Definition update_errors (req_body : js_object) : list field_error :=
  chain true (fun v => isURL (to_string v)) "url" "Invalid URL" req_body
  ++ chain true notEmpty "title" "Title cannot be empty" req_body.

(** [app.post("/bookmarks", ...)] *)
Definition post_bookmarks (e : env) (req_body : js_object) : M response :=
  let errors := create_errors req_body in
  if negb (isEmpty errors) then ret (mkResponse 400 (Errors errors))
  else
    let url := obj_get "url" req_body in
    let title := obj_get "title" req_body in
    let description := obj_get "description" req_body in
    let id := uuid e in
    let created_at := now e in
    r <- db_insert (fault1 e) id (bind_text url) (bind_text title)
           (bind_text (js_or description VNull)) (Some created_at) ;;
    match r with
    | Err => ret database_error
    | Ok _ =>
        ret (json 201 [ ("id", VStr id);
                        ("url", url);
                        ("title", title);
                        ("description", description);
                        ("created_at", VStr created_at) ])
    end.

(** [app.get("/bookmarks", ...)] *)
Definition get_bookmarks (e : env) : M response :=
  r <- db_all (fault1 e) ;;
  match r with
  | Err => ret database_error
  | Ok rows => ret (mkResponse 200 (JsonArray (map row_object rows)))
  end.

(** [app.get("/bookmarks/:id", ...)] *)
Definition get_bookmark (e : env) (i : string) : M response :=
  r <- db_get (fault1 e) i ;;
  match r with
  | Err => ret database_error
  | Ok None => ret not_found
  | Ok (Some found) => ret (json 200 (row_object found))
  end.

(** [app.put("/bookmarks/:id", ...)] *)
Definition put_bookmark (e : env) (i : string) (req_body : js_object)
  : M response :=
  let errors := update_errors req_body in
  if negb (isEmpty errors) then ret (mkResponse 400 (Errors errors))
  else
    let url := obj_get "url" req_body in
    let title := obj_get "title" req_body in
    let description := obj_get "description" req_body in
    r <- db_get (fault1 e) i ;;
    match r with
    | Err => ret database_error
    | Ok None => ret not_found
    | Ok (Some found) =>
        let bookmark := row_object found in
        let updatedBookmark :=
          [ ("url", js_coalesce url (obj_get "url" bookmark));
            ("title", js_coalesce title (obj_get "title" bookmark));
            ("description",
              js_coalesce description (obj_get "description" bookmark)) ] in
        r' <- db_update (fault2 e)
                (bind_text (obj_get "url" updatedBookmark))
                (bind_text (obj_get "title" updatedBookmark))
                (bind_text (obj_get "description" updatedBookmark)) i ;;
        match r' with
        | Err => ret database_error
        | Ok _ => ret (json 200 (obj_spread bookmark updatedBookmark))
        end
    end.

(** [app.delete("/bookmarks/:id", ...)] *)
Definition delete_bookmark (e : env) (i : string) : M response :=
  r <- db_delete (fault1 e) i ;;
  match r with
  | Err => ret database_error
  | Ok changes =>
      if Nat.eqb changes 0 then ret not_found
      else ret (mkResponse 204 Empty)
  end.

Definition handle (e : env) (q : request) : M response :=
  match q with
  | POST req_body => post_bookmarks e req_body
  | GET_all => get_bookmarks e
  | GET i => get_bookmark e i
  | PUT i req_body => put_bookmark e i req_body
  | DELETE i => delete_bookmark e i
  end.

(** The world after serving a sequence of requests, oldest first. *)
Fixpoint run (trace : list (env * request)) (w : world) : world :=
  match trace with
  | [] => w
  | (e, q) :: rest => run rest (snd (handle e q w))
  end.

(** The application: the JSON middleware, then the route, with the
    global error handler behind both.  A body the middleware rejects
    goes straight to the error handler.  With [req.body] undefined the
    validation chains see every field as [undefined], and a create or
    an update that gets past them throws where it destructures
    [req.body] (lines 53 and 119), which again ends in the error
    handler; the other routes never look at the body. *)
Definition app (e : env) (rt : route) (p : req_body) : M response :=
  match p with
  | Malformed => ret internal_error
  | Body o =>
      match rt with
      | CreateBookmark => post_bookmarks e o
      | ReadAll => get_bookmarks e
      | ReadById i => get_bookmark e i
      | UpdateBookmark i => put_bookmark e i o
      | DeleteBookmark i => delete_bookmark e i
      end
  | NoBody =>
      match rt with
      | CreateBookmark =>
          let errors := create_errors [] in
          if negb (isEmpty errors) then ret (mkResponse 400 (Errors errors))
          else ret internal_error
      | ReadAll => get_bookmarks e
      | ReadById i => get_bookmark e i
      | UpdateBookmark i =>
          let errors := update_errors [] in
          if negb (isEmpty errors) then ret (mkResponse 400 (Errors errors))
          else ret internal_error
      | DeleteBookmark i => delete_bookmark e i
      end
  end.

(** The five ways an update can go. *)
Inductive put_case (e : env) (i : string) (b : js_object) (w : world)
  : response * world -> Prop :=
| put_rejected :
    update_errors b <> [] ->
    put_case e i b w (mkResponse 400 (Errors (update_errors b)), w)
| put_lookup_failed :
    update_errors b = [] -> fault1 e = true ->
    put_case e i b w
      (database_error, mkWorld (table w) (journal w ++ [SelectById i]))
| put_absent :
    update_errors b = [] -> fault1 e = false ->
    find (has_id i) (table w) = None ->
    put_case e i b w
      (not_found, mkWorld (table w) (journal w ++ [SelectById i]))
| put_write_failed r :
    update_errors b = [] -> fault1 e = false ->
    find (has_id i) (table w) = Some r -> fault2 e = true ->
    put_case e i b w
      (database_error,
       mkWorld (table w) (journal w ++ [SelectById i; Update i]))
| put_written r u t :
    update_errors b = [] -> fault1 e = false ->
    find (has_id i) (table w) = Some r -> fault2 e = false ->
    bind_text (merged "url" b r) = Some u ->
    bind_text (merged "title" b r) = Some t ->
    put_case e i b w
      (mkResponse 200
         (Json [ ("id", VStr (id r));
                 ("url", merged "url" b r);
                 ("title", merged "title" b r);
                 ("description", merged "description" b r);
                 ("created_at", VStr (created_at r)) ]),
       mkWorld
         (map (set_columns i u t (bind_text (merged "description" b r)))
            (table w))
         (journal w ++ [SelectById i; Update i])).

End Server.


(** * Properties *)

(** ** Values, objects and bound parameters *)

Lemma string_of_Z_not_empty (n : Z) : string_of_Z n <> "".
Proof.
  unfold string_of_Z.
  destruct (Z.to_int n) as [d | d]; simpl.
  - destruct d; simpl; discriminate.
  - discriminate.
Qed.

Lemma bind_text_defined (v : value) :
  nullish v = false -> exists s, bind_text v = Some s.
Proof.
  destruct v; simpl; intros H; try discriminate; eauto.
Qed.

Lemma bind_text_not_empty (v : value) (s : string) :
  to_string v <> "" -> bind_text v = Some s -> s <> "".
Proof.
  destruct v as [ | | b | n | s']; simpl; intros Hv Hb; try discriminate;
    injection Hb as <-.
  - destruct b; discriminate.
  - destruct (int32 n); [ apply string_of_Z_not_empty | ].
    destruct (string_of_Z n); discriminate.
  - exact Hv.
Qed.

Lemma bind_text_of_sql (c : sqlval) : bind_text (of_sql c) = c.
Proof. destruct c; reflexivity. Qed.

Lemma of_sql_bind_text (m : value) :
  (m = VNull \/ exists s, m = VStr s) -> of_sql (bind_text m) = m.
Proof. intros [-> | [s ->]]; reflexivity. Qed.

Lemma notEmpty_true (v : value) : notEmpty v = true <-> to_string v <> "".
Proof.
  unfold notEmpty. rewrite negb_true_iff, String.eqb_neq. tauto.
Qed.

Lemma json_of_row_object (r : row) :
  json_of_object (row_object r) = row_object r.
Proof.
  unfold row_object, json_of_object. simpl.
  destruct (description r); reflexivity.
Qed.

(** ** Rows found by identifier *)

Lemma find_has_id (i : string) (t : list row) (r : row) :
  find (has_id i) t = Some r -> In r t /\ id r = i.
Proof.
  intros H. apply find_some in H. destruct H as [Hin Hid].
  split; [ exact Hin | now apply String.eqb_eq ].
Qed.

Lemma existsb_has_id (i : string) (t : list row) :
  existsb (has_id i) t = true <-> In i (map id t).
Proof.
  rewrite existsb_exists, in_map_iff. unfold has_id.
  split; intros [r [H1 H2]]; exists r.
  - apply String.eqb_eq in H2. tauto.
  - split; [ tauto | apply String.eqb_eq; tauto ].
Qed.

Lemma find_none_has_id (i : string) (t : list row) :
  find (has_id i) t = None <-> ~ In i (map id t).
Proof.
  rewrite <- existsb_has_id. split.
  - intros H Hex. apply existsb_exists in Hex. destruct Hex as [r [Hin Hr]].
    pose proof (find_none _ _ H r Hin). congruence.
  - intros H. destruct (find (has_id i) t) as [r | ] eqn:F; [ | reflexivity ].
    exfalso. apply H. apply existsb_exists. exists r. now apply find_some.
Qed.

Lemma filter_has_id_nil (i : string) (t : list row) :
  length (filter (has_id i) t) = 0 <-> ~ In i (map id t).
Proof.
  rewrite <- existsb_has_id. split.
  - intros H Hex. apply existsb_exists in Hex. destruct Hex as [r [Hin Hr]].
    assert (In r (filter (has_id i) t)) by (apply filter_In; tauto).
    destruct (filter (has_id i) t); [ contradiction | discriminate ].
  - intros H. destruct (filter (has_id i) t) as [ | r l] eqn:F; [ reflexivity | ].
    exfalso. apply H. apply existsb_exists. exists r.
    apply filter_In. rewrite F. now left.
Qed.

Lemma map_id_set_columns (i u t : string) (d : sqlval) (l : list row) :
  map id (map (set_columns i u t d) l) = map id l.
Proof.
  rewrite map_map. apply map_ext. intros r. unfold set_columns.
  destruct (has_id i r); reflexivity.
Qed.

Lemma map_id_filter_out (i : string) (l : list row) :
  NoDup (map id l) -> NoDup (map id (filter (fun r => negb (has_id i r)) l)).
Proof.
  induction l as [ | r l IH]; simpl; intros H; [ constructor | ].
  inversion H as [ | x xs Hnot Hrest]; subst.
  destruct (negb (has_id i r)); simpl; [ | now apply IH ].
  constructor; [ | now apply IH ].
  intros Hin. apply Hnot. apply in_map_iff in Hin. destruct Hin as [r' [E Hr']].
  apply filter_In in Hr'. apply in_map_iff. exists r'. tauto.
Qed.

Lemma same_id_same_row (l : list row) (r r' : row) :
  NoDup (map id l) -> In r l -> In r' l -> id r = id r' -> r = r'.
Proof.
  induction l as [ | x l IH]; simpl; intros Hnd Hr Hr' E; [ contradiction | ].
  inversion Hnd as [ | y ys Hnot Hrest]; subst.
  destruct Hr as [-> | Hr], Hr' as [-> | Hr'].
  - reflexivity.
  - exfalso. apply Hnot. rewrite E. now apply in_map.
  - exfalso. apply Hnot. rewrite <- E. now apply in_map.
  - now apply IH.
Qed.

Lemma app_nil_iff {A : Type} (l l' : list A) :
  l ++ l' = [] <-> l = [] /\ l' = [].
Proof.
  split.
  - apply app_eq_nil.
  - intros [-> ->]. reflexivity.
Qed.

Lemma chain_nil (optional : bool) (test : value -> bool) (f m : string)
    (b : js_object) :
  chain optional test f m b = [] <->
  (optional = true /\ obj_get f b = VUndefined) \/ test (obj_get f b) = true.
Proof.
  unfold chain.
  destruct optional; simpl;
    destruct (obj_get f b); simpl; destruct (test _); simpl;
    intuition discriminate.
Qed.

Lemma filter_nothing_out (i : string) (l : list row) :
  ~ In i (map id l) -> filter (fun r => negb (has_id i r)) l = l.
Proof.
  induction l as [ | r l IH]; simpl; intros H; [ reflexivity | ].
  unfold has_id at 1. destruct (id r =? i) eqn:E; simpl.
  - apply String.eqb_eq in E. exfalso. apply H. now left.
  - f_equal. apply IH. tauto.
Qed.

Lemma in_filter_out (i : string) (l : list row) (x : row) :
  In x (filter (fun r => negb (has_id i r)) l) <-> In x l /\ id x <> i.
Proof.
  rewrite filter_In. unfold has_id.
  rewrite negb_true_iff, String.eqb_neq. tauto.
Qed.

Lemma find_set_columns (i u t : string) (d : sqlval) (l : list row) (r : row) :
  find (has_id i) l = Some r ->
  find (has_id i) (map (set_columns i u t d) l)
  = Some (mkRow (id r) u t d (created_at r)).
Proof.
  induction l as [ | x l IH]; simpl; intros H; [ discriminate | ].
  destruct (has_id i x) eqn:E.
  - injection H as <-.
    assert (S : set_columns i u t d x = mkRow (id x) u t d (created_at x))
      by (unfold set_columns; now rewrite E).
    rewrite S. unfold has_id in *. simpl. now rewrite E.
  - assert (S : set_columns i u t d x = x)
      by (unfold set_columns; now rewrite E).
    rewrite S, E. now apply IH.
Qed.

Lemma in_set_columns_other (i u t : string) (d : sqlval) (l : list row)
    (x : row) :
  id x <> i -> (In x (map (set_columns i u t d) l) <-> In x l).
Proof.
  intros N. rewrite in_map_iff. split.
  - intros [y [E Hy]]. unfold set_columns, has_id in E.
    destruct (id y =? i) eqn:Y.
    + apply String.eqb_eq in Y. subst x. simpl in N. congruence.
    + now subst y.
  - intros Hx. exists x. split; [ | exact Hx ].
    unfold set_columns, has_id.
    destruct (id x =? i) eqn:Y; [ | reflexivity ].
    apply String.eqb_eq in Y. congruence.
Qed.

Lemma find_app_fresh (i : string) (l : list row) (r : row) :
  ~ In i (map id l) -> id r = i -> find (has_id i) (l ++ [r]) = Some r.
Proof.
  intros N E. induction l as [ | x l IH]; simpl.
  - unfold has_id. rewrite E, String.eqb_refl. reflexivity.
  - simpl in N. unfold has_id at 1. destruct (id x =? i) eqn:X.
    + apply String.eqb_eq in X. tauto.
    + apply IH. tauto.
Qed.

Lemma NoDup_snoc {A : Type} (l : list A) (a : A) :
  NoDup l -> ~ In a l -> NoDup (l ++ [a]).
Proof.
  induction l as [ | x l IH]; simpl; intros H N.
  - constructor; [ intros [] | constructor ].
  - inversion H as [ | y ys Hx Hl]; subst. constructor.
    + rewrite in_app_iff. simpl. intros [I | [I | []]]; [ tauto | ].
      apply N. now left.
    + apply IH; tauto.
Qed.

(** ** Deleting and reading *)

Lemma delete_run (e : env) (i : string) (w : world) :
  fault1 e = false ->
  delete_bookmark e i w
  = (if Nat.eqb (length (filter (has_id i) (table w))) 0
     then mkResponse 404 (Message "Bookmark not found")
     else mkResponse 204 Empty,
     mkWorld (filter (fun r => negb (has_id i r)) (table w))
       (journal w ++ [Delete i])).
Proof.
  intros F. unfold delete_bookmark, bind, db_delete, issue, bind, ret. simpl.
  rewrite F. destruct (Nat.eqb _ 0); reflexivity.
Qed.

(** C4 — [DELETE /bookmarks/:id] with a working driver: when no row has
    the identifier, the answer is 404 and the table is unchanged; when
    one has, the answer is 204 with an empty body, the matching row is
    gone and the other rows stay; so a second delete of the same
    identifier right after a successful one answers 404. *)
Theorem delete_bookmark_status (e e' : env) (i : string) (w : world) :
  fault1 e = false ->
  fault1 e' = false ->
  let (r, w') := delete_bookmark e i w in
  (~ In i (map id (table w)) ->
     r = mkResponse 404 (Message "Bookmark not found") /\
     table w' = table w) /\
  (In i (map id (table w)) ->
     r = mkResponse 204 Empty /\
     ~ In i (map id (table w')) /\
     (forall x, In x (table w') <-> In x (table w) /\ id x <> i) /\
     status (fst (delete_bookmark e' i w')) = 404).
Proof.
  intros F F'. rewrite (delete_run e i w F).
  split.
  - intros N. pose proof (proj2 (filter_has_id_nil i (table w)) N) as Z.
    rewrite Z. simpl. split; [ reflexivity | ].
    now apply filter_nothing_out.
  - intros Hin.
    assert (Gone : ~ In i (map id (filter (fun r => negb (has_id i r)) (table w)))).
    { intros H. apply in_map_iff in H. destruct H as [x [E Hx]].
      apply in_filter_out in Hx. tauto. }
    destruct (Nat.eqb (length (filter (has_id i) (table w))) 0) eqn:Z.
    + apply Nat.eqb_eq, filter_has_id_nil in Z. contradiction.
    + split; [ reflexivity | ]. cbn [table]. split; [ exact Gone | ].
      split; [ intros x; apply in_filter_out | ].
      rewrite (delete_run e' i _ F'). cbn [table fst].
      rewrite (proj2 (filter_has_id_nil i _) Gone). reflexivity.
Qed.

Lemma get_run (e : env) (i : string) (w : world) :
  get_bookmark e i w
  = (if fault1 e then mkResponse 500 (Message "Database error")
     else match find (has_id i) (table w) with
          | Some x => mkResponse 200 (Json (row_object x))
          | None => mkResponse 404 (Message "Bookmark not found")
          end,
     mkWorld (table w) (journal w ++ [SelectById i])).
Proof.
  unfold get_bookmark, bind, db_get, issue, bind, ret. simpl.
  destruct (fault1 e); [ reflexivity | ].
  destruct (find (has_id i) (table w)) as [x | ]; [ | reflexivity ].
  unfold json. rewrite json_of_row_object. reflexivity.
Qed.

(** C8 — [GET /bookmarks/:id]: when a row has the identifier, the answer
    is 200 with a matching row as the record; when none has (any unused
    identifier), it is 404 with the not-found message; when the driver
    reports a fault, it is 500 with a generic message.  The table is
    left as it was. *)
Theorem get_bookmark_status (e : env) (i : string) (w : world) :
  let (r, w') := get_bookmark e i w in
  table w' = table w /\
  (fault1 e = false ->
   In i (map id (table w)) ->
   exists x, In x (table w) /\ id x = i /\
             find (has_id i) (table w) = Some x /\
             r = mkResponse 200 (Json (row_object x))) /\
  (fault1 e = false ->
   ~ In i (map id (table w)) ->
   r = mkResponse 404 (Message "Bookmark not found")) /\
  (fault1 e = true -> r = mkResponse 500 (Message "Database error")).
Proof.
  rewrite get_run. split; [ reflexivity | ].
  split; [ | split ].
  - intros F Hin. rewrite F.
    destruct (find (has_id i) (table w)) as [x | ] eqn:Fd.
    + exists x. destruct (find_has_id _ _ _ Fd). auto.
    + apply find_none_has_id in Fd. contradiction.
  - intros F N. rewrite F. apply find_none_has_id in N. rewrite N. reflexivity.
  - intros F. rewrite F. reflexivity.
Qed.

(** ** The handlers, case by case *)

Section Properties.

Variable isURL : string -> bool.

(** The library's check rejects the empty string. *)
Hypothesis isURL_empty : isURL "" = false.

Lemma create_errors_nil (b : js_object) :
  create_errors isURL b = [] <->
  isURL (to_string (obj_get "url" b)) = true /\
  notEmpty (obj_get "title" b) = true.
Proof.
  unfold create_errors. rewrite app_nil_iff, !chain_nil. simpl.
  intuition discriminate.
Qed.

Lemma update_errors_nil (b : js_object) :
  update_errors isURL b = [] <->
  (obj_get "url" b = VUndefined \/
   isURL (to_string (obj_get "url" b)) = true) /\
  (obj_get "title" b = VUndefined \/ notEmpty (obj_get "title" b) = true).
Proof.
  unfold update_errors. rewrite app_nil_iff, !chain_nil. simpl.
  intuition discriminate.
Qed.

Lemma post_invalid (e : env) (b : js_object) (w : world) :
  create_errors isURL b <> [] ->
  post_bookmarks isURL e b w
  = (mkResponse 400 (Errors (create_errors isURL b)), w).
Proof.
  intros H. unfold post_bookmarks.
  destruct (create_errors isURL b); [ congruence | reflexivity ].
Qed.

Lemma valid_url_binds (v : value) :
  isURL (to_string v) = true ->
  exists u, bind_text v = Some u /\ u <> "".
Proof.
  intros H.
  assert (N : to_string v <> "") by (intros E; rewrite E in H; congruence).
  destruct (bind_text_defined v) as [u Hu].
  - destruct v; try reflexivity; simpl in N; congruence.
  - exists u. split; [ exact Hu | now apply (bind_text_not_empty v) ].
Qed.

Lemma valid_title_binds (v : value) :
  notEmpty v = true -> exists t, bind_text v = Some t /\ t <> "".
Proof.
  intros H. apply notEmpty_true in H.
  destruct (bind_text_defined v) as [t Ht].
  - destruct v; try reflexivity; simpl in H; congruence.
  - exists t. split; [ exact Ht | now apply (bind_text_not_empty v) ].
Qed.

(** A valid create with a working driver and an unused identifier. *)
Lemma post_valid (e : env) (b : js_object) (w : world) :
  create_errors isURL b = [] ->
  fault1 e = false ->
  ~ In (uuid e) (map id (table w)) ->
  exists u t,
    bind_text (obj_get "url" b) = Some u /\ u <> "" /\
    bind_text (obj_get "title" b) = Some t /\ t <> "" /\
    post_bookmarks isURL e b w
    = (json 201 [ ("id", VStr (uuid e));
                  ("url", obj_get "url" b);
                  ("title", obj_get "title" b);
                  ("description", obj_get "description" b);
                  ("created_at", VStr (now e)) ],
       mkWorld
         (table w ++
          [mkRow (uuid e) u t
             (bind_text (js_or (obj_get "description" b) VNull)) (now e)])
         (journal w ++ [Insert (uuid e)])).
Proof.
  intros Hv Hf Hfresh.
  pose proof (proj1 (create_errors_nil b) Hv) as [Hu Ht].
  destruct (valid_url_binds _ Hu) as [u [Bu Nu]].
  destruct (valid_title_binds _ Ht) as [t [Bt Nt]].
  exists u, t. repeat (split; [ assumption | ]).
  unfold post_bookmarks. rewrite Hv. simpl.
  unfold bind, db_insert, issue, bind, ret. simpl.
  rewrite Hf, Bu, Bt.
  destruct (existsb (has_id (uuid e)) (table w)) eqn:X; [ | reflexivity ].
  apply existsb_has_id in X. contradiction.
Qed.

(** What any create does to the table. *)
Lemma post_table (e : env) (b : js_object) (w : world) :
  table (snd (post_bookmarks isURL e b w)) = table w \/
  exists u t d,
    u <> "" /\ t <> "" /\ ~ In (uuid e) (map id (table w)) /\
    status (fst (post_bookmarks isURL e b w)) = 201 /\
    table (snd (post_bookmarks isURL e b w))
    = table w ++ [mkRow (uuid e) u t d (now e)].
Proof.
  destruct (create_errors isURL b) eqn:V.
  - destruct (fault1 e) eqn:F.
    + left. unfold post_bookmarks. rewrite V. simpl.
      unfold bind, db_insert, issue, bind, ret. simpl. rewrite F. reflexivity.
    + destruct (existsb (has_id (uuid e)) (table w)) eqn:X.
      * left. unfold post_bookmarks. rewrite V. simpl.
        unfold bind, db_insert, issue, bind, ret. simpl. rewrite F, X.
        destruct (bind_text (obj_get "url" b));
          destruct (bind_text (obj_get "title" b)); reflexivity.
      * assert (Hfresh : ~ In (uuid e) (map id (table w))).
        { intros Hin. apply existsb_has_id in Hin. congruence. }
        destruct (post_valid e b w V F Hfresh) as [u [t [_ [Nu [_ [Nt E]]]]]].
        right. exists u, t. eexists. rewrite E. simpl. tauto.
  - left. rewrite post_invalid; [ reflexivity | congruence ].
Qed.

Lemma put_invalid (e : env) (i : string) (b : js_object) (w : world) :
  update_errors isURL b <> [] ->
  put_bookmark isURL e i b w
  = (mkResponse 400 (Errors (update_errors isURL b)), w).
Proof.
  intros H. unfold put_bookmark.
  destruct (update_errors isURL b); [ congruence | reflexivity ].
Qed.

Lemma put_fault1 (e : env) (i : string) (b : js_object) (w : world) :
  update_errors isURL b = [] ->
  fault1 e = true ->
  put_bookmark isURL e i b w
  = (database_error, mkWorld (table w) (journal w ++ [SelectById i])).
Proof.
  intros V F. unfold put_bookmark. rewrite V. simpl.
  unfold bind, db_get, issue, bind, ret. simpl. rewrite F. reflexivity.
Qed.

Lemma put_missing (e : env) (i : string) (b : js_object) (w : world) :
  update_errors isURL b = [] ->
  fault1 e = false ->
  find (has_id i) (table w) = None ->
  put_bookmark isURL e i b w
  = (not_found, mkWorld (table w) (journal w ++ [SelectById i])).
Proof.
  intros V F N. unfold put_bookmark. rewrite V. simpl.
  unfold bind, db_get, issue, bind, ret. simpl. rewrite F, N. reflexivity.
Qed.

Lemma merged_binds (f : string) (b : js_object) (r : row) :
  In f ["url"; "title"] -> exists s, bind_text (merged f b r) = Some s.
Proof.
  intros H. apply bind_text_defined. unfold merged, js_coalesce.
  destruct (nullish (obj_get f b)) eqn:N; [ | exact N ].
  destruct H as [<- | [<- | []]]; reflexivity.
Qed.

Lemma merged_url_not_empty (b : js_object) (r : row) (u : string) :
  update_errors isURL b = [] ->
  bind_text (merged "url" b r) = Some u -> u = url r \/ u <> "".
Proof.
  intros V Bu. apply update_errors_nil in V. destruct V as [[U | U] _].
  - left. unfold merged in Bu. rewrite U in Bu. simpl in Bu. congruence.
  - right. destruct (valid_url_binds _ U) as [u' [Bu' Nu]].
    unfold merged in Bu.
    destruct (obj_get "url" b); simpl in *; congruence.
Qed.

Lemma merged_title_not_empty (b : js_object) (r : row) (t : string) :
  update_errors isURL b = [] ->
  bind_text (merged "title" b r) = Some t -> t = title r \/ t <> "".
Proof.
  intros V Bt. apply update_errors_nil in V. destruct V as [_ [T | T]].
  - left. unfold merged in Bt. rewrite T in Bt. simpl in Bt. congruence.
  - right. destruct (valid_title_binds _ T) as [t' [Bt' Nt]].
    unfold merged in Bt.
    destruct (obj_get "title" b); simpl in *; congruence.
Qed.

Lemma merged_defined (f : string) (b : js_object) (r : row) :
  In f ["url"; "title"; "description"] -> merged f b r <> VUndefined.
Proof.
  unfold merged, js_coalesce. intros H.
  destruct (obj_get f b) eqn:G; simpl; try discriminate;
    simpl in H; destruct H as [<- | [<- | [<- | []]]]; simpl;
    try discriminate; destruct (description r); discriminate.
Qed.

(** A valid update of a row that exists, with a working driver. *)
Lemma put_found (e : env) (i : string) (b : js_object) (w : world) (r : row) :
  update_errors isURL b = [] ->
  fault1 e = false ->
  fault2 e = false ->
  find (has_id i) (table w) = Some r ->
  exists u t,
    bind_text (merged "url" b r) = Some u /\
    bind_text (merged "title" b r) = Some t /\
    put_bookmark isURL e i b w
    = (mkResponse 200
         (Json [ ("id", VStr (id r));
                 ("url", merged "url" b r);
                 ("title", merged "title" b r);
                 ("description", merged "description" b r);
                 ("created_at", VStr (created_at r)) ]),
       mkWorld
         (map (set_columns i u t (bind_text (merged "description" b r)))
            (table w))
         (journal w ++ [SelectById i; Update i])).
Proof.
  intros V F1 F2 Hr.
  destruct (merged_binds "url" b r) as [u Bu]; [ simpl; auto | ].
  destruct (merged_binds "title" b r) as [t Bt]; [ simpl; auto | ].
  exists u, t. repeat (split; [ assumption | ]).
  unfold put_bookmark. rewrite V. simpl.
  unfold bind, db_get, db_update, issue, bind, ret. simpl.
  rewrite F1, Hr, F2.
  change (js_coalesce (obj_get "url" b) (VStr (url r)))
    with (merged "url" b r).
  change (js_coalesce (obj_get "title" b) (VStr (title r)))
    with (merged "title" b r).
  change (js_coalesce (obj_get "description" b) (of_sql (description r)))
    with (merged "description" b r).
  rewrite Bu, Bt. cbn [table journal]. rewrite <- app_assoc. simpl.
  unfold json, json_of_object. simpl.
  pose proof (merged_defined "url" b r) as D1.
  pose proof (merged_defined "title" b r) as D2.
  pose proof (merged_defined "description" b r) as D3.
  simpl in D1, D2, D3.
  destruct (merged "url" b r); [ exfalso; apply D1; auto | .. ];
    (destruct (merged "title" b r); [ exfalso; apply D2; auto | .. ]);
    (destruct (merged "description" b r); [ exfalso; apply D3; auto | .. ]);
    reflexivity.
Qed.

(** ** Rejected requests *)

Lemma in_chain (optional : bool) (test : value -> bool) (f m : string)
    (b : js_object) (x : field_error) :
  In x (chain optional test f m b) <->
  x = mkError f m /\ test (obj_get f b) = false /\
  (optional = true -> obj_get f b <> VUndefined).
Proof.
  unfold chain.
  destruct optional; simpl;
    destruct (obj_get f b); simpl; destruct (test _); simpl;
    intuition (try discriminate; try congruence).
Qed.

(** C5 — [POST /bookmarks] with a body that fails validation (the url
    is not accepted by the syntax check, or the title is missing or
    empty): the answer is 400 with a non-empty list of field errors,
    one for each failing field with its message; no statement is
    issued and the table is unchanged, so listing afterwards gives
    what listing before gave. *)
Theorem post_bookmarks_rejects (e e' : env) (b : js_object) (w : world) :
  isURL (to_string (obj_get "url" b)) = false \/
    to_string (obj_get "title" b) = "" ->
  let (r, w') := post_bookmarks isURL e b w in
  r = mkResponse 400 (Errors (create_errors isURL b)) /\
  create_errors isURL b <> [] /\
  (forall x, In x (create_errors isURL b) <->
     (x = mkError "url" "Invalid URL" /\
      isURL (to_string (obj_get "url" b)) = false) \/
     (x = mkError "title" "Title is required" /\
      to_string (obj_get "title" b) = "")) /\
  w' = w /\
  fst (get_bookmarks e' w') = fst (get_bookmarks e' w).
Proof.
  intros H.
  assert (N : create_errors isURL b <> []).
  { rewrite create_errors_nil, notEmpty_true. intros [U T].
    destruct H; congruence. }
  rewrite (post_invalid e b w N).
  repeat split; try assumption.
  - unfold create_errors. rewrite in_app_iff, !in_chain.
    intros [[-> [U _]] | [-> [T _]]]; [ left | right ]; split; auto.
    unfold notEmpty in T. now apply negb_false_iff, String.eqb_eq in T.
  - unfold create_errors. rewrite in_app_iff, !in_chain.
    intros [[-> U] | [-> T]]; [ left | right ];
      (split; [ reflexivity | split; [ | discriminate ] ]); auto.
    unfold notEmpty. now apply negb_false_iff, String.eqb_eq.
Qed.

(** C6 — [PUT /bookmarks/:id]: when url is present and not accepted by
    the syntax check, or title is present and empty, the answer is 400
    with the field errors and the world is untouched (no lookup, no
    write); when the body passes validation, the driver works and no
    row has the identifier, the answer is 404, only the lookup was
    issued and the table is unchanged. *)
Theorem put_bookmark_rejects (e : env) (i : string) (b : js_object)
    (w : world) :
  let (r, w') := put_bookmark isURL e i b w in
  ((obj_get "url" b <> VUndefined /\
    isURL (to_string (obj_get "url" b)) = false) \/
   (obj_get "title" b <> VUndefined /\
    to_string (obj_get "title" b) = "") ->
   r = mkResponse 400 (Errors (update_errors isURL b)) /\
   update_errors isURL b <> [] /\
   (forall x, In x (update_errors isURL b) ->
      x = mkError "url" "Invalid URL" \/
      x = mkError "title" "Title cannot be empty") /\
   w' = w) /\
  (update_errors isURL b = [] ->
   fault1 e = false ->
   ~ In i (map id (table w)) ->
   r = mkResponse 404 (Message "Bookmark not found") /\
   table w' = table w /\
   journal w' = journal w ++ [SelectById i]).
Proof.
  destruct (put_bookmark isURL e i b w) as [r w'] eqn:Run. split.
  - intros H.
    assert (N : update_errors isURL b <> []).
    { rewrite update_errors_nil, notEmpty_true. intros [U T].
      destruct H as [[H1 H2] | [H1 H2]]; [ destruct U | destruct T ];
        congruence. }
    rewrite (put_invalid e i b w N) in Run. injection Run as <- <-.
    repeat split; try assumption.
    unfold update_errors. intros x. rewrite in_app_iff, !in_chain. tauto.
  - intros V F N. apply find_none_has_id in N.
    rewrite (put_missing e i b w V F N) in Run. injection Run as <- <-.
    repeat split.
Qed.

(** ** Updates that go through *)

Lemma merged_stored_as_answered (f : string) (b : js_object) (r : row) :
  In f ["url"; "title"; "description"] ->
  nullish (obj_get f b) = true \/ (exists s, obj_get f b = VStr s) ->
  of_sql (bind_text (merged f b r)) = merged f b r.
Proof.
  intros Hf H. apply of_sql_bind_text. unfold merged, js_coalesce.
  destruct H as [N | [s E]].
  - rewrite N. destruct Hf as [<- | [<- | [<- | []]]]; simpl; eauto.
    destruct (description r); simpl; eauto.
  - rewrite E. simpl. eauto.
Qed.

(** C1 — [PUT /bookmarks/:id] on an existing identifier with a body
    that passes validation and a working driver: the answer is 200
    with the merged record, in which url, title and description take
    the body's value when the body gives one that is not null, and
    keep the row's value when the field is absent or null; id and
    created_at are the row's.  In the row found under the identifier
    afterwards, every field that was kept or supplied as a string holds
    exactly the value answered, so when that is every field the row is
    the record answered; id and created_at are unchanged and rows with
    other identifiers are untouched.  With the body [{description: x}]
    alone, url and title keep their values and the description becomes
    [x]. *)
Theorem put_bookmark_merges (e : env) (i : string) (b : js_object)
    (w : world) (r : row) :
  update_errors isURL b = [] ->
  fault1 e = false ->
  fault2 e = false ->
  find (has_id i) (table w) = Some r ->
  let (res, w') := put_bookmark isURL e i b w in
  exists o r',
    res = mkResponse 200 (Json o) /\
    find (has_id i) (table w') = Some r' /\
    (forall f, In f ["url"; "title"; "description"] ->
       obj_get f o = if nullish (obj_get f b)
                     then obj_get f (row_object r)
                     else obj_get f b) /\
    obj_get "id" o = VStr (id r) /\
    obj_get "created_at" o = VStr (created_at r) /\
    id r' = id r /\
    created_at r' = created_at r /\
    (forall f, In f ["url"; "title"; "description"] ->
       nullish (obj_get f b) = true \/ (exists s, obj_get f b = VStr s) ->
       obj_get f (row_object r') = obj_get f o) /\
    ((forall f, In f ["url"; "title"; "description"] ->
        nullish (obj_get f b) = true \/ (exists s, obj_get f b = VStr s)) ->
     row_object r' = o) /\
    (forall x, id x <> i -> In x (table w') <-> In x (table w)) /\
    (forall x, b = [("description", VStr x)] ->
       url r' = url r /\ title r' = title r /\ description r' = Some x /\
       o = row_object r').
Proof.
  intros V F1 F2 Hr.
  destruct (put_found e i b w r V F1 F2 Hr) as [u [t [Bu [Bt Run]]]].
  rewrite Run. eexists. eexists. split; [ reflexivity | ].
  cbn [table]. split; [ exact (find_set_columns _ _ _ _ _ _ Hr) | ].
  split.
  { intros f [<- | [<- | [<- | []]]]; reflexivity. }
  do 4 (split; [ reflexivity | ]).
  assert (Each : forall f, In f ["url"; "title"; "description"] ->
            nullish (obj_get f b) = true \/ (exists s, obj_get f b = VStr s) ->
            obj_get f
              (row_object
                 (mkRow (id r) u t (bind_text (merged "description" b r))
                    (created_at r)))
            = merged f b r).
  { intros f Hf H. pose proof (merged_stored_as_answered f b r Hf H) as S.
    destruct Hf as [<- | [<- | [<- | []]]]; simpl.
    - rewrite Bu in S. exact S.
    - rewrite Bt in S. exact S.
    - exact S. }
  split.
  { intros f Hf H. rewrite (Each f Hf H).
    destruct Hf as [<- | [<- | [<- | []]]]; reflexivity. }
  split.
  { intros All. unfold row_object at 1.
    pose proof (Each "url" (or_introl eq_refl) (All _ (or_introl eq_refl)))
      as E1.
    pose proof (Each "title" (or_intror (or_introl eq_refl))
                  (All _ (or_intror (or_introl eq_refl)))) as E2.
    pose proof (Each "description"
                  (or_intror (or_intror (or_introl eq_refl)))
                  (All _ (or_intror (or_intror (or_introl eq_refl))))) as E3.
    simpl in E1, E2, E3. cbn [id url title description created_at].
    rewrite E1, E2, E3. reflexivity. }
  split; [ intros x N; now apply in_set_columns_other | ].
  intros x ->. unfold merged in *. simpl in *.
  injection Bu as <-. injection Bt as <-.
  unfold row_object. simpl. repeat split.
Qed.

(** C10 — [PUT /bookmarks/:id] on an existing row with a valid body
    whose description is given as null: the answer carries the row's
    previous description and the row found afterwards has it too. *)
Theorem put_bookmark_null_description (e : env) (i : string)
    (b : js_object) (w : world) (r : row) :
  update_errors isURL b = [] ->
  fault1 e = false ->
  fault2 e = false ->
  find (has_id i) (table w) = Some r ->
  supplied "description" b = true ->
  obj_get "description" b = VNull ->
  let (res, w') := put_bookmark isURL e i b w in
  exists o r',
    res = mkResponse 200 (Json o) /\
    obj_get "description" o = of_sql (description r) /\
    find (has_id i) (table w') = Some r' /\
    description r' = description r.
Proof.
  intros V F1 F2 Hr _ D.
  destruct (put_found e i b w r V F1 F2 Hr) as [u [t [_ [_ Run]]]].
  rewrite Run. eexists. eexists. split; [ reflexivity | ].
  assert (M : merged "description" b r = of_sql (description r))
    by (unfold merged; rewrite D; reflexivity).
  split; [ exact M | ].
  cbn [table]. split; [ exact (find_set_columns _ _ _ _ _ _ Hr) | ].
  simpl. rewrite M. destruct (description r); reflexivity.
Qed.

(** ** What each request does to the table *)

Lemma put_table (e : env) (i : string) (b : js_object) (w : world) :
  table (snd (put_bookmark isURL e i b w)) = table w \/
  exists r u t d,
    find (has_id i) (table w) = Some r /\
    (u = url r \/ u <> "") /\ (t = title r \/ t <> "") /\
    table (snd (put_bookmark isURL e i b w))
    = map (set_columns i u t d) (table w).
Proof.
  destruct (update_errors isURL b) eqn:V;
    [ | left; rewrite put_invalid; [ reflexivity | congruence ] ].
  destruct (fault1 e) eqn:F1;
    [ left; rewrite put_fault1; auto | ].
  destruct (find (has_id i) (table w)) as [r | ] eqn:Fd;
    [ | left; rewrite put_missing; auto ].
  destruct (fault2 e) eqn:F2.
  - left. unfold put_bookmark. rewrite V. simpl.
    unfold bind, db_get, db_update, issue, bind, ret. simpl.
    rewrite F1, Fd, F2. reflexivity.
  - destruct (put_found e i b w r V F1 F2 Fd) as [u [t [Bu [Bt Run]]]].
    right. exists r, u, t. eexists. rewrite Run. simpl.
    pose proof (merged_url_not_empty b r u V Bu).
    pose proof (merged_title_not_empty b r t V Bt). auto.
Qed.

Lemma delete_table (e : env) (i : string) (w : world) :
  table (snd (delete_bookmark e i w)) = table w \/
  table (snd (delete_bookmark e i w))
  = filter (fun r => negb (has_id i r)) (table w).
Proof.
  destruct (fault1 e) eqn:F.
  - left. unfold delete_bookmark, bind, db_delete, issue, bind, ret. simpl.
    rewrite F. reflexivity.
  - right. rewrite delete_run by assumption. reflexivity.
Qed.

Lemma get_bookmarks_table (e : env) (w : world) :
  table (snd (get_bookmarks e w)) = table w.
Proof.
  unfold get_bookmarks, bind, db_all, issue, bind, ret. simpl.
  destruct (fault1 e); reflexivity.
Qed.

Lemma handle_preserves (e : env) (q : request) (w : world) :
  well_formed (table w) -> well_formed (table (snd (handle isURL e q w))).
Proof.
  intros [Hnd Hne]. destruct q as [b | | i | i b | i]; simpl.
  - destruct (post_table e b w) as [-> | [u [t [d [Nu [Nt [Fr [_ ->]]]]]]]];
      [ now split | ].
    split.
    + rewrite map_app. simpl. now apply NoDup_snoc.
    + intros r. rewrite in_app_iff. simpl.
      intros [I | [<- | []]]; [ now apply Hne | now split ].
  - rewrite get_bookmarks_table. now split.
  - rewrite get_run. now split.
  - destruct (put_table e i b w) as [-> | [r [u [t [d [Fd [Nu [Nt ->]]]]]]]];
      [ now split | ].
    destruct (find_has_id _ _ _ Fd) as [Hr _].
    destruct (Hne r Hr) as [Ur Tr].
    split.
    + now rewrite map_id_set_columns.
    + intros x Hx. apply in_map_iff in Hx. destruct Hx as [y [<- Hy]].
      unfold set_columns. destruct (has_id i y); [ | now apply Hne ].
      simpl. split.
      * destruct Nu; congruence.
      * destruct Nt; congruence.
  - destruct (delete_table e i w) as [-> | ->]; [ now split | ].
    split.
    + now apply map_id_filter_out.
    + intros x Hx. apply in_filter_out in Hx. apply Hne. tauto.
Qed.

(** Where a row of the next table comes from: a row of the current
    table with the same identifier and creation time, or the create
    being served. *)
Lemma handle_rows (e : env) (q : request) (w : world) (r' : row) :
  In r' (table (snd (handle isURL e q w))) ->
  (exists r, In r (table w) /\ id r = id r' /\ created_at r = created_at r')
  \/
  (exists b, q = POST b /\
             status (fst (post_bookmarks isURL e b w)) = 201 /\
             ~ In (id r') (map id (table w)) /\
             id r' = uuid e /\ created_at r' = now e).
Proof.
  destruct q as [b | | i | i b | i]; simpl.
  - destruct (post_table e b w) as [-> | [u [t [d [_ [_ [Fr [St ->]]]]]]]].
    + intros H. left. now exists r'.
    + rewrite in_app_iff. simpl. intros [H | [<- | []]].
      * left. now exists r'.
      * right. exists b. simpl. auto.
  - rewrite get_bookmarks_table. intros H. left. now exists r'.
  - rewrite get_run. intros H. left. now exists r'.
  - destruct (put_table e i b w) as [-> | [r [u [t [d [_ [_ [_ ->]]]]]]]].
    + intros H. left. now exists r'.
    + intros H. apply in_map_iff in H. destruct H as [y [<- Hy]].
      left. exists y. unfold set_columns. destruct (has_id i y); auto.
  - destruct (delete_table e i w) as [-> | ->].
    + intros H. left. now exists r'.
    + intros H. apply in_filter_out in H. left. exists r'. tauto.
Qed.

Lemma run_preserves (trace : list (env * request)) (w : world) :
  well_formed (table w) -> well_formed (table (run isURL trace w)).
Proof.
  revert w. induction trace as [ | [e q] rest IH]; simpl; intros w H.
  - exact H.
  - apply IH. now apply handle_preserves.
Qed.

Lemma run_origin (trace : list (env * request)) (w : world) (r : row) :
  In r (table (run isURL trace w)) ->
  (exists r0, In r0 (table w) /\ id r0 = id r /\ created_at r0 = created_at r)
  \/
  (exists pre e b post,
      trace = pre ++ (e, POST b) :: post /\
      status (fst (post_bookmarks isURL e b (run isURL pre w))) = 201 /\
      id r = uuid e /\ created_at r = now e).
Proof.
  revert w. induction trace as [ | [e q] rest IH]; simpl; intros w H.
  - left. now exists r.
  - destruct (IH _ H) as [[r1 [I1 [E1 C1]]] | [pre [e' [b [post [-> [St [E C]]]]]]]].
    + destruct (handle_rows e q w r1 I1)
        as [[r0 [I0 [E0 C0]]] | [b [-> [St [_ [E C]]]]]].
      * left. exists r0. repeat split; congruence.
      * right. exists [], e, b, rest. simpl. repeat split; congruence.
    + right. exists ((e, q) :: pre), e', b, post. simpl. auto.
Qed.

(** ** Reachable states *)

(** C3 — In the world reached from the empty table by any sequence of
    requests (whatever identifiers, times and driver faults they meet):
    no identifier is held by two rows; every row has a non-empty url
    and title (that they are not null is the row type's NOT NULL
    columns, which the statements enforce); every row was inserted by
    a create of the sequence that answered 201, drew the row's
    identifier and read the row's created_at from the clock; and
    whatever request comes next, a row that keeps its identifier
    keeps its created_at. *)
Theorem reachable_invariants (trace : list (env * request)) :
  let w := run isURL trace empty_world in
  NoDup (map id (table w)) /\
  (forall r, In r (table w) -> url r <> "" /\ title r <> "") /\
  (forall r, In r (table w) ->
     exists pre e b post,
       trace = pre ++ (e, POST b) :: post /\
       status (fst (post_bookmarks isURL e b (run isURL pre empty_world)))
       = 201 /\
       id r = uuid e /\ created_at r = now e) /\
  (forall e q r r',
     In r (table w) ->
     In r' (table (snd (handle isURL e q w))) ->
     id r' = id r ->
     created_at r' = created_at r).
Proof.
  intros w.
  assert (W0 : well_formed (table empty_world)).
  { split; [ constructor | intros r [] ]. }
  destruct (run_preserves trace empty_world W0) as [Hnd Hne].
  fold w in Hnd, Hne.
  split; [ exact Hnd | ]. split; [ exact Hne | ]. split.
  - intros r Hr. destruct (run_origin trace empty_world r Hr)
      as [[r0 [[] _]] | H]; exact H.
  - intros e q r r' Hr Hr' E.
    destruct (handle_rows e q w r' Hr')
      as [[r0 [I0 [E0 C0]]] | [b [_ [_ [Fr _]]]]].
    + assert (r0 = r) by (apply (same_id_same_row (table w)); congruence).
      congruence.
    + exfalso. apply Fr. rewrite E. now apply in_map.
Qed.

(** ** Creates that go through *)

(** C9 — [POST /bookmarks] with a valid body whose description is the
    empty string, a working driver and an unused identifier: the row
    appended to the table has a NULL description, and the world is the
    one the same request without a description would have produced. *)
Theorem post_bookmarks_empty_description (e : env) (b b' : js_object)
    (w : world) :
  create_errors isURL b = [] ->
  fault1 e = false ->
  ~ In (uuid e) (map id (table w)) ->
  obj_get "description" b = VStr "" ->
  obj_get "url" b' = obj_get "url" b ->
  obj_get "title" b' = obj_get "title" b ->
  obj_get "description" b' = VUndefined ->
  let w1 := snd (post_bookmarks isURL e b w) in
  (exists r, table w1 = table w ++ [r] /\
             id r = uuid e /\ description r = None) /\
  snd (post_bookmarks isURL e b' w) = w1.
Proof.
  intros V F Fr D U' T' D' w1.
  assert (V' : create_errors isURL b' = []).
  { apply create_errors_nil. rewrite U', T'. now apply create_errors_nil. }
  destruct (post_valid e b w V F Fr) as [u [t [Bu [_ [Bt [_ Run]]]]]].
  destruct (post_valid e b' w V' F Fr) as [u' [t' [Bu' [_ [Bt' Run']]]]].
  destruct Run' as [_ Run'].
  unfold w1. rewrite Run, Run'. simpl.
  rewrite U', Bu in Bu'. rewrite T', Bt in Bt'.
  injection Bu' as <-. injection Bt' as <-.
  rewrite D, D'. simpl. split; [ | reflexivity ].
  eexists. split; [ reflexivity | ]. split; reflexivity.
Qed.

(** C7 — create, then update with only a new valid url, then read: with
    working drivers and an unused identifier the three requests answer
    201, 200 and 200, and the record read at the end has the new url,
    the title and description a read right after the create returned,
    and the created_at the create took from the clock. *)
Theorem create_update_get (e1 e2 e3 : env) (b : js_object) (u : string)
    (w : world) :
  create_errors isURL b = [] ->
  isURL u = true ->
  fault1 e1 = false ->
  ~ In (uuid e1) (map id (table w)) ->
  fault1 e2 = false ->
  fault2 e2 = false ->
  fault1 e3 = false ->
  let i := uuid e1 in
  let created := post_bookmarks isURL e1 b w in
  let updated := put_bookmark isURL e2 i [("url", VStr u)] (snd created) in
  exists before after,
    status (fst created) = 201 /\
    status (fst updated) = 200 /\
    fst (get_bookmark e3 i (snd created)) = mkResponse 200 (Json before) /\
    fst (get_bookmark e3 i (snd updated)) = mkResponse 200 (Json after) /\
    obj_get "id" after = VStr i /\
    obj_get "url" after = VStr u /\
    obj_get "title" after = obj_get "title" before /\
    obj_get "description" after = obj_get "description" before /\
    obj_get "created_at" after = obj_get "created_at" before /\
    obj_get "created_at" after = VStr (now e1).
Proof.
  intros V U F1 Fr F2 F2' F3 i created updated.
  destruct (post_valid e1 b w V F1 Fr) as [u0 [t0 [_ [_ [_ [_ Run]]]]]].
  set (r := mkRow (uuid e1) u0 t0
              (bind_text (js_or (obj_get "description" b) VNull)) (now e1))
    in Run.
  assert (Fd : find (has_id i) (table (snd created)) = Some r).
  { unfold created. rewrite Run. simpl. now apply find_app_fresh. }
  assert (V' : update_errors isURL [("url", VStr u)] = []).
  { unfold update_errors, chain. simpl. rewrite U. reflexivity. }
  destruct (put_found e2 i _ _ r V' F2 F2' Fd)
    as [u1 [t1 [Bu [Bt Run']]]].
  unfold merged in Bu, Bt. simpl in Bu, Bt.
  injection Bu as <-. injection Bt as <-.
  exists (row_object r).
  exists (row_object (mkRow (uuid e1) u t0 (description r) (now e1))).
  split; [ unfold created; rewrite Run; reflexivity | ].
  split; [ unfold updated; rewrite Run'; reflexivity | ].
  split; [ rewrite get_run, F3, Fd; reflexivity | ].
  split; [ | simpl; repeat split ].
  rewrite get_run, F3. unfold updated. rewrite Run'. cbn [snd fst table].
  rewrite (find_set_columns _ _ _ _ _ _ Fd).
  unfold merged. simpl. destruct (bind_text _); reflexivity.
Qed.

End Properties.

(** * Worked requests *)

(** C2 — [POST /bookmarks] with the valid body
    [{url: "http://a.example", title: "A"}], which has no description:
    the answer is 201, but its record has no description property at
    all (the handler answers with the request's own [description],
    which is [undefined] and is dropped on serialisation), while the
    row it stored has a NULL description and a read of the same
    identifier returns [description: null]. *)
Theorem post_bookmarks_response_without_description :
  let e := quiet "b1" "2024-01-01T00:00:00.000Z" in
  let (r, w') := post_bookmarks http_prefixed e good_body empty_world in
  create_errors http_prefixed good_body = [] /\
  supplied "description" good_body = false /\
  r = mkResponse 201
        (Json [ ("id", VStr "b1");
                ("url", VStr "http://a.example");
                ("title", VStr "A");
                ("created_at", VStr "2024-01-01T00:00:00.000Z") ]) /\
  table w'
  = [mkRow "b1" "http://a.example" "A" None "2024-01-01T00:00:00.000Z"] /\
  fst (get_bookmark e "b1" w')
  = mkResponse 200
      (Json [ ("id", VStr "b1");
              ("url", VStr "http://a.example");
              ("title", VStr "A");
              ("description", VNull);
              ("created_at", VStr "2024-01-01T00:00:00.000Z") ]).
Proof. vm_compute. repeat split. Qed.

(** Two updates of the row [b0] that pass validation and answer 200.
    The first supplies [description: null]: the description answered
    and stored is still the old one, so the supplied value was not
    taken.  The second supplies [title: 7]: the answer carries the
    number, the row stores the text ["7"], so the record answered is
    not the record persisted and a read right after answers
    differently. *)
Lemma put_bookmark_supplied_not_persisted :
  (let b := [("description", VNull)] in
   let (res, w') := put_bookmark http_prefixed (quiet "" "") "b0" b one_row in
   update_errors http_prefixed b = [] /\
   find (has_id "b0") (table one_row) = Some old_row /\
   supplied "description" b = true /\
   exists o,
     res = mkResponse 200 (Json o) /\
     obj_get "description" o = VStr "about" /\
     obj_get "description" o <> obj_get "description" b /\
     find (has_id "b0") (table w') = Some old_row) /\
  (let b := [("title", VNum 7)] in
   let (res, w') := put_bookmark http_prefixed (quiet "" "") "b0" b one_row in
   update_errors http_prefixed b = [] /\
   supplied "title" b = true /\
   exists o r',
     res = mkResponse 200 (Json o) /\
     obj_get "title" o = VNum 7 /\
     find (has_id "b0") (table w') = Some r' /\
     title r' = "7" /\
     row_object r' <> o /\
     fst (get_bookmark (quiet "" "") "b0" w') <> res).
Proof.
  split.
  - vm_compute. repeat split. eexists. split; [ reflexivity | ].
    repeat split. discriminate.
  - vm_compute. do 2 (split; [ reflexivity | ]).
    eexists. eexists. do 4 (split; [ reflexivity | ]).
    split; discriminate.
Qed.

Lemma put_bookmark_merges_witness :
  let b := [("description", VStr "x")] in
  let run := put_bookmark http_prefixed (quiet "" "") "b0" b one_row in
  update_errors http_prefixed b = [] /\
  find (has_id "b0") (table one_row) = Some old_row /\
  exists o r',
    fst run = mkResponse 200 (Json o) /\
    find (has_id "b0") (table (snd run)) = Some r' /\
    url r' = url old_row /\ title r' = title old_row /\
    description r' = Some "x" /\ o = row_object r'.
Proof.
  intros b run.
  assert (V : update_errors http_prefixed b = []) by reflexivity.
  assert (Fd : find (has_id "b0") (table one_row) = Some old_row)
    by reflexivity.
  repeat (split; [ reflexivity | ]).
  pose proof (put_bookmark_merges http_prefixed (quiet "" "") "b0" b
                one_row old_row V eq_refl eq_refl Fd) as T.
  fold run in T. destruct run as [res w'].
  destruct T as [o [r' [-> [Fd' [_ [_ [_ [_ [_ [_ [_ [_ P]]]]]]]]]]]].
  destruct (P "x" eq_refl) as [U [T' [D O]]].
  exists o, r'. simpl. auto.
Defined.

Lemma put_bookmark_null_description_witness :
  let b := [("description", VNull); ("title", VStr "New")] in
  let run := put_bookmark http_prefixed (quiet "" "") "b0" b one_row in
  update_errors http_prefixed b = [] /\
  find (has_id "b0") (table one_row) = Some old_row /\
  supplied "description" b = true /\
  obj_get "description" b = VNull /\
  exists r',
    status (fst run) = 200 /\
    find (has_id "b0") (table (snd run)) = Some r' /\
    description r' = Some "about".
Proof.
  intros b run. repeat (split; [ reflexivity | ]).
  pose proof (put_bookmark_null_description http_prefixed (quiet "" "") "b0"
                b one_row old_row eq_refl eq_refl eq_refl eq_refl eq_refl
                eq_refl) as T.
  fold run in T. destruct run as [res w'].
  destruct T as [o [r' [-> [_ [Fd D]]]]].
  exists r'. simpl. auto.
Defined.

Lemma delete_bookmark_status_witness :
  let e := quiet "" "" in
  let first := delete_bookmark e "b0" one_row in
  fault1 e = false /\
  In "b0" (map id (table one_row)) /\
  fst first = mkResponse 204 Empty /\
  status (fst (delete_bookmark e "b0" (snd first))) = 404.
Proof.
  intros e first. split; [ reflexivity | ].
  assert (I : In "b0" (map id (table one_row))) by (simpl; auto).
  split; [ exact I | ].
  pose proof (delete_bookmark_status e e "b0" one_row eq_refl eq_refl) as T.
  fold first in T. destruct first as [r w'].
  destruct T as [_ T]. destruct (T I) as [-> [_ [_ S]]].
  split; [ reflexivity | exact S ].
Defined.

Lemma get_bookmark_status_witness :
  let e := quiet "" "" in
  fault1 e = false /\
  In "b0" (map id (table one_row)) /\
  ~ In "zz" (map id (table one_row)) /\
  (exists x, In x (table one_row) /\ id x = "b0" /\
             fst (get_bookmark e "b0" one_row)
             = mkResponse 200 (Json (row_object x))) /\
  fst (get_bookmark e "zz" one_row)
  = mkResponse 404 (Message "Bookmark not found") /\
  fst (get_bookmark (mkEnv "" "" true false) "b0" one_row)
  = mkResponse 500 (Message "Database error").
Proof.
  intros e. split; [ reflexivity | ].
  assert (I : In "b0" (map id (table one_row))) by (simpl; auto).
  assert (N : ~ In "zz" (map id (table one_row)))
    by (simpl; intros [H | []]; discriminate).
  split; [ exact I | ]. split; [ exact N | ].
  pose proof (get_bookmark_status e "b0" one_row) as T1.
  pose proof (get_bookmark_status e "zz" one_row) as T2.
  pose proof (get_bookmark_status (mkEnv "" "" true false) "b0" one_row) as T3.
  destruct (get_bookmark e "b0" one_row) as [r1 w1].
  destruct (get_bookmark e "zz" one_row) as [r2 w2].
  destruct (get_bookmark _ "b0" one_row) as [r3 w3].
  destruct T1 as [_ [T1 _]]. destruct (T1 eq_refl I) as [x [Hx [Ex [_ R]]]].
  destruct T2 as [_ [_ [T2 _]]]. destruct T3 as [_ [_ [_ T3]]].
  split; [ exists x; auto | ].
  split; [ exact (T2 eq_refl N) | exact (T3 eq_refl) ].
Defined.

Lemma post_bookmarks_rejects_witness :
  let e := quiet "b9" "2024-02-02T00:00:00.000Z" in
  http_prefixed (to_string (obj_get "url" bad_body)) = false /\
  post_bookmarks http_prefixed e bad_body one_row
  = (mkResponse 400 (Errors (create_errors http_prefixed bad_body)), one_row).
Proof.
  intros e.
  assert (H : http_prefixed (to_string (obj_get "url" bad_body)) = false)
    by reflexivity.
  split; [ exact H | ].
  pose proof (post_bookmarks_rejects http_prefixed e e bad_body one_row
                (or_introl H)) as T.
  destruct (post_bookmarks http_prefixed e bad_body one_row) as [r w'].
  destruct T as [-> [_ [_ [-> _]]]]. reflexivity.
Defined.

Lemma put_bookmark_rejects_witness :
  let e := quiet "" "" in
  (obj_get "title" bad_body <> VUndefined /\
   to_string (obj_get "title" bad_body) = "") /\
  put_bookmark http_prefixed e "b0" bad_body one_row
  = (mkResponse 400 (Errors (update_errors http_prefixed bad_body)), one_row) /\
  update_errors http_prefixed good_body = [] /\
  ~ In "zz" (map id (table one_row)) /\
  fst (put_bookmark http_prefixed e "zz" good_body one_row)
  = mkResponse 404 (Message "Bookmark not found") /\
  table (snd (put_bookmark http_prefixed e "zz" good_body one_row))
  = table one_row.
Proof.
  intros e.
  assert (H : obj_get "title" bad_body <> VUndefined /\
              to_string (obj_get "title" bad_body) = "")
    by (split; [ discriminate | reflexivity ]).
  assert (N : ~ In "zz" (map id (table one_row)))
    by (simpl; intros [X | []]; discriminate).
  split; [ exact H | ].
  pose proof (put_bookmark_rejects http_prefixed e "b0" bad_body one_row) as T1.
  pose proof (put_bookmark_rejects http_prefixed e "zz" good_body one_row) as T2.
  destruct (put_bookmark http_prefixed e "b0" bad_body one_row) as [r1 w1].
  destruct (put_bookmark http_prefixed e "zz" good_body one_row) as [r2 w2].
  destruct T1 as [T1 _]. destruct (T1 (or_intror H)) as [-> [_ [_ ->]]].
  destruct T2 as [_ T2]. destruct (T2 eq_refl eq_refl N) as [-> [Tb _]].
  repeat split; assumption.
Defined.

Lemma post_bookmarks_empty_description_witness :
  let e := quiet "b1" "2024-01-01T00:00:00.000Z" in
  let b := good_body ++ [("description", VStr "")] in
  http_prefixed "" = false /\
  create_errors http_prefixed b = [] /\
  ~ In (uuid e) (map id (table one_row)) /\
  obj_get "description" b = VStr "" /\
  (exists r, table (snd (post_bookmarks http_prefixed e b one_row))
             = table one_row ++ [r] /\ description r = None) /\
  snd (post_bookmarks http_prefixed e good_body one_row)
  = snd (post_bookmarks http_prefixed e b one_row).
Proof.
  intros e b.
  assert (N : ~ In (uuid e) (map id (table one_row)))
    by (simpl; intros [X | []]; discriminate).
  split; [ reflexivity | ]. split; [ reflexivity | ].
  split; [ exact N | ]. split; [ reflexivity | ].
  destruct (post_bookmarks_empty_description http_prefixed eq_refl e b
              good_body one_row eq_refl eq_refl N eq_refl eq_refl eq_refl
              eq_refl) as [[r [Tb [_ D]]] Same].
  split; [ exists r; auto | exact Same ].
Defined.

Lemma create_update_get_witness :
  let e1 := quiet "b1" "2024-01-01T00:00:00.000Z" in
  let e := quiet "" "" in
  let u := "https://moved.example" in
  let w1 := snd (post_bookmarks http_prefixed e1 good_body one_row) in
  let w2 := snd (put_bookmark http_prefixed e "b1" [("url", VStr u)] w1) in
  http_prefixed "" = false /\
  create_errors http_prefixed good_body = [] /\
  http_prefixed u = true /\
  ~ In (uuid e1) (map id (table one_row)) /\
  exists after,
    fst (get_bookmark e "b1" w2) = mkResponse 200 (Json after) /\
    obj_get "url" after = VStr u /\
    obj_get "created_at" after = VStr "2024-01-01T00:00:00.000Z".
Proof.
  intros e1 e u w1 w2.
  assert (N : ~ In (uuid e1) (map id (table one_row)))
    by (simpl; intros [X | []]; discriminate).
  repeat (split; [ reflexivity || exact N | ]).
  destruct (create_update_get http_prefixed eq_refl e1 e e good_body u one_row
              eq_refl eq_refl eq_refl N eq_refl eq_refl eq_refl)
    as [before [after [_ [_ [_ [G [_ [U [_ [_ [_ C]]]]]]]]]]].
  exists after. repeat split; assumption.
Defined.

Lemma reachable_invariants_witness :
  let w := run http_prefixed a_session empty_world in
  http_prefixed "" = false /\
  table w
  = [mkRow "b1" "http://a.example" "A3" None "2024-01-01T00:00:00.000Z"] /\
  NoDup (map id (table w)) /\
  (forall r, In r (table w) -> url r <> "" /\ title r <> "").
Proof.
  intros w. split; [ reflexivity | ]. split; [ reflexivity | ].
  destruct (reachable_invariants http_prefixed eq_refl a_session)
    as [N [E _]].
  split; [ exact N | exact E ].
Defined.

(** * Further properties of the handlers *)

(** ** Closed forms *)

Lemma find_unique (l : list row) (x : row) :
  NoDup (map id l) -> In x l -> find (has_id (id x)) l = Some x.
Proof.
  intros Hnd Hx.
  destruct (find (has_id (id x)) l) as [y | ] eqn:F.
  - destruct (find_has_id _ _ _ F) as [Hy E].
    f_equal. now apply (same_id_same_row l).
  - apply find_none_has_id in F. exfalso. apply F. now apply in_map.
Qed.

Lemma set_columns_twice (i u t : string) (d : sqlval) (x : row) :
  set_columns i u t d (set_columns i u t d x) = set_columns i u t d x.
Proof.
  unfold set_columns. destruct (has_id i x) eqn:E.
  - unfold has_id in *. simpl. now rewrite E.
  - now rewrite E.
Qed.

Lemma set_columns_same (l : list row) (i : string) (r : row) :
  NoDup (map id l) ->
  find (has_id i) l = Some r ->
  map (set_columns i (url r) (title r) (description r)) l = l.
Proof.
  intros Hnd F. destruct (find_has_id _ _ _ F) as [Hr Er].
  rewrite <- (map_id l) at 2. apply map_ext_in. intros x Hx.
  unfold set_columns, has_id. destruct (id x =? i) eqn:E; [ | reflexivity ].
  apply String.eqb_eq in E.
  assert (x = r) by (apply (same_id_same_row l); congruence).
  subst x. destruct r; reflexivity.
Qed.

Lemma filter_split_length (i : string) (l : list row) :
  length (filter (has_id i) l)
  + length (filter (fun r => negb (has_id i r)) l) = length l.
Proof.
  induction l as [ | x l IH]; simpl; [ reflexivity | ].
  destruct (has_id i x); simpl; rewrite <- IH.
  - reflexivity.
  - now rewrite Nat.add_succ_r.
Qed.

Lemma filter_has_id_at_most_one (i : string) (l : list row) :
  NoDup (map id l) -> length (filter (has_id i) l) <= 1.
Proof.
  induction l as [ | x l IH]; simpl; intros H; [ auto | ].
  inversion H as [ | y ys Hx Hl]; subst.
  unfold has_id at 1. destruct (id x =? i) eqn:E; [ | now apply IH ].
  apply String.eqb_eq in E. simpl.
  rewrite (proj2 (filter_has_id_nil i l)); [ auto | congruence ].
Qed.

Lemma delete_run_any (e : env) (i : string) (w : world) :
  delete_bookmark e i w
  = if fault1 e
    then (database_error, mkWorld (table w) (journal w ++ [Delete i]))
    else (if Nat.eqb (length (filter (has_id i) (table w))) 0
          then not_found else mkResponse 204 Empty,
          mkWorld (filter (fun r => negb (has_id i r)) (table w))
            (journal w ++ [Delete i])).
Proof.
  unfold delete_bookmark, bind, db_delete, issue, bind, ret. simpl.
  destruct (fault1 e); [ reflexivity | ].
  destruct (Nat.eqb _ 0); reflexivity.
Qed.

Lemma get_bookmarks_run (e : env) (w : world) :
  get_bookmarks e w
  = (if fault1 e then database_error
     else mkResponse 200 (JsonArray (map row_object (table w))),
     mkWorld (table w) (journal w ++ [SelectAll])).
Proof.
  unfold get_bookmarks, bind, db_all, issue, bind, ret. simpl.
  destruct (fault1 e); reflexivity.
Qed.

Section Further.

Variable isURL : string -> bool.

Lemma post_run (e : env) (b : js_object) (w : world) :
  post_bookmarks isURL e b w
  = match create_errors isURL b with
    | _ :: _ => (mkResponse 400 (Errors (create_errors isURL b)), w)
    | [] =>
        let w1 := mkWorld (table w) (journal w ++ [Insert (uuid e)]) in
        if fault1 e then (database_error, w1)
        else match bind_text (obj_get "url" b),
                   bind_text (obj_get "title" b) with
             | Some u, Some t =>
                 if existsb (has_id (uuid e)) (table w)
                 then (database_error, w1)
                 else (json 201 (created_record e b),
                       mkWorld
                         (table w ++
                          [mkRow (uuid e) u t
                             (bind_text
                                (js_or (obj_get "description" b) VNull))
                             (now e)])
                         (journal w ++ [Insert (uuid e)]))
             | _, _ => (database_error, w1)
             end
    end.
Proof.
  unfold post_bookmarks.
  destruct (create_errors isURL b) eqn:V; [ | reflexivity ].
  simpl. unfold bind, db_insert, issue, bind, ret. simpl.
  destruct (fault1 e); [ reflexivity | ].
  destruct (bind_text (obj_get "url" b)); [ | reflexivity ].
  destruct (bind_text (obj_get "title" b)); [ | reflexivity ].
  destruct (existsb (has_id (uuid e)) (table w)); reflexivity.
Qed.

Lemma put_fault2 (e : env) (i : string) (b : js_object) (w : world) (r : row) :
  update_errors isURL b = [] ->
  fault1 e = false ->
  find (has_id i) (table w) = Some r ->
  fault2 e = true ->
  put_bookmark isURL e i b w
  = (database_error,
     mkWorld (table w) (journal w ++ [SelectById i; Update i])).
Proof.
  intros V F1 Fd F2. unfold put_bookmark. rewrite V. simpl.
  unfold bind, db_get, db_update, issue, bind, ret. simpl.
  rewrite F1, Fd, F2. cbn [table journal]. now rewrite <- app_assoc.
Qed.

Lemma put_cases (e : env) (i : string) (b : js_object) (w : world) :
  put_case isURL e i b w (put_bookmark isURL e i b w).
Proof.
  destruct (update_errors isURL b) eqn:V.
  - destruct (fault1 e) eqn:F1.
    + rewrite put_fault1 by assumption. now constructor.
    + destruct (find (has_id i) (table w)) as [r | ] eqn:Fd.
      * destruct (fault2 e) eqn:F2.
        -- rewrite (put_fault2 e i b w r) by assumption.
           now apply put_write_failed with r.
        -- destruct (put_found isURL e i b w r V F1 F2 Fd)
             as [u [t [Bu [Bt ->]]]].
           now apply put_written.
      * rewrite put_missing by assumption. now constructor.
  - rewrite put_invalid by congruence. constructor. congruence.
Qed.

(** ** Every request *)

Ltac post_branches e b w :=
  rewrite (post_run e b w);
  destruct (create_errors isURL b) eqn:?V;
  [ cbv zeta;
    destruct (fault1 e) eqn:?F;
    [ | destruct (bind_text (obj_get "url" b)) eqn:?Bu;
        [ destruct (bind_text (obj_get "title" b)) eqn:?Bt;
          [ destruct (existsb (has_id (uuid e)) (table w)) eqn:?X | ] | ] ]
  | ].

(** X1 — The status codes of each route: create answers 201, 400 or 500;
    list 200 or 500; get-by-id 200, 404 or 500; update 200, 400, 404 or
    500; delete 204, 404 or 500. *)
Theorem handle_status (e : env) (q : request) (w : world) :
  let s := status (fst (handle isURL e q w)) in
  match q with
  | POST _ => s = 201 \/ s = 400 \/ s = 500
  | GET_all => s = 200 \/ s = 500
  | GET _ => s = 200 \/ s = 404 \/ s = 500
  | PUT _ _ => s = 200 \/ s = 400 \/ s = 404 \/ s = 500
  | DELETE _ => s = 204 \/ s = 404 \/ s = 500
  end.
Proof.
  destruct q as [b | | i | i b | i]; simpl.
  - post_branches e b w; simpl; auto.
  - rewrite get_bookmarks_run. destruct (fault1 e); simpl; auto.
  - rewrite get_run. destruct (fault1 e); simpl; auto.
    destruct (find (has_id i) (table w)); simpl; auto.
  - destruct (put_cases e i b w); simpl; auto.
  - rewrite delete_run_any. destruct (fault1 e); simpl; auto.
    destruct (Nat.eqb _ 0); simpl; auto.
Qed.

(** X2 — A request that is answered with an error status (400, 404 or
    500) leaves the table exactly as it was, and so does every read
    (list and get-by-id) whatever its answer. *)
Theorem handle_error_keeps_table (e : env) (q : request) (w : world) :
  let (r, w') := handle isURL e q w in
  (400 <= status r -> table w' = table w) /\
  match q with
  | GET_all | GET _ => table w' = table w
  | _ => True
  end.
Proof.
  destruct q as [b | | i | i b | i]; simpl.
  - post_branches e b w; simpl; split; auto.
    intros Hs. apply Nat.leb_le in Hs. discriminate.
  - rewrite get_bookmarks_run. split; reflexivity.
  - rewrite get_run. split; reflexivity.
  - destruct (put_cases e i b w); simpl; split; auto.
    intros Hs. apply Nat.leb_le in Hs. discriminate.
  - rewrite delete_run_any. destruct (fault1 e); simpl; [ auto | ].
    split; [ | exact I ].
    destruct (Nat.eqb (length (filter (has_id i) (table w))) 0) eqn:Z; simpl.
    + intros _. apply filter_nothing_out, filter_has_id_nil.
      now apply Nat.eqb_eq.
    + intros Hs. apply Nat.leb_le in Hs. discriminate.
Qed.

(** The statements a route issues once it runs on a parsed body: none
    exactly when it answers 400. *)
Lemma handle_statements (e : env) (q : request) (w : world) :
  let (r, w') := handle isURL e q w in
  exists l,
    journal w' = journal w ++ l /\
    (l = [] <-> status r = 400) /\
    match q with
    | POST _ => l = [] \/ l = [Insert (uuid e)]
    | GET_all => l = [SelectAll]
    | GET i => l = [SelectById i]
    | PUT i _ =>
        l = [] \/ l = [SelectById i] \/
        (l = [SelectById i; Update i] /\ In i (map id (table w)))
    | DELETE i => l = [Delete i]
    end.
Proof.
  assert (N : forall (s : stmt) (l : list stmt) (n : nat),
             n <> 400 -> (s :: l = [] <-> n = 400))
    by (intros; split; [ discriminate | contradiction ]).
  assert (Z : forall (l : list stmt), l = l ++ [])
    by (intros; now rewrite app_nil_r).
  destruct q as [b | | i | i b | i]; simpl.
  - post_branches e b w; simpl;
      try (exists [Insert (uuid e)]; split; [ reflexivity | ];
           split; [ apply N; discriminate | auto ]).
    exists []. split; [ apply Z | ]. split; [ tauto | auto ].
  - rewrite get_bookmarks_run. exists [SelectAll].
    split; [ reflexivity | ]. split; [ | reflexivity ].
    destruct (fault1 e); apply N; discriminate.
  - rewrite get_run. exists [SelectById i].
    split; [ reflexivity | ]. split; [ | reflexivity ].
    destruct (fault1 e); [ apply N; discriminate | ].
    destruct (find (has_id i) (table w)); apply N; discriminate.
  - destruct (put_cases e i b w) as [V | V F | V F Fd | r V F Fd F2
                                    | r u t V F Fd F2 Bu Bt]; simpl.
    + exists []. split; [ apply Z | ]. split; [ tauto | auto ].
    + exists [SelectById i]. split; [ reflexivity | ].
      split; [ apply N; discriminate | auto ].
    + exists [SelectById i]. split; [ reflexivity | ].
      split; [ apply N; discriminate | auto ].
    + exists [SelectById i; Update i]. split; [ reflexivity | ].
      split; [ apply N; discriminate | ].
      right. right. split; [ reflexivity | ].
      destruct (find_has_id _ _ _ Fd) as [Hr <-]. now apply in_map.
    + exists [SelectById i; Update i]. split; [ reflexivity | ].
      split; [ apply N; discriminate | ].
      right. right. split; [ reflexivity | ].
      destruct (find_has_id _ _ _ Fd) as [Hr <-]. now apply in_map.
  - rewrite delete_run_any.
    destruct (fault1 e); simpl; exists [Delete i];
      (split; [ reflexivity | ]); (split; [ | reflexivity ]).
    + apply N; discriminate.
    + destruct (Nat.eqb _ 0); apply N; discriminate.
Qed.

Lemma handle_not_internal (e : env) (q : request) (w : world) :
  fst (handle isURL e q w) <> internal_error.
Proof.
  destruct q as [b | | i | i b | i]; simpl.
  - post_branches e b w; simpl; discriminate.
  - rewrite get_bookmarks_run. destruct (fault1 e); discriminate.
  - rewrite get_run. destruct (fault1 e); [ discriminate | ].
    destruct (find (has_id i) (table w)); discriminate.
  - destruct (put_cases e i b w); discriminate.
  - rewrite delete_run_any. destruct (fault1 e); [ discriminate | ].
    simpl. destruct (Nat.eqb _ 0); discriminate.
Qed.

(** X3 — The statements a request to the application issues: none
    exactly when it is answered 400 or by the global error handler
    (500 [Internal Server Error]: a body that does not parse, or an
    update that reaches its handler with no body); otherwise one INSERT
    for a create, one SELECT for a list or a get-by-id, one DELETE for
    a delete, and for an update a SELECT by id, followed by an UPDATE
    only when a row with that id exists.  Earlier journal entries are
    never touched. *)
Theorem app_statements (e : env) (rt : route) (p : req_body) (w : world) :
  let (r, w') := app isURL e rt p w in
  exists l,
    journal w' = journal w ++ l /\
    (l = [] <->
     status r = 400 \/ r = mkResponse 500 (Message "Internal Server Error")) /\
    match rt with
    | CreateBookmark => l = [] \/ l = [Insert (uuid e)]
    | ReadAll => l = [] \/ l = [SelectAll]
    | ReadById i => l = [] \/ l = [SelectById i]
    | UpdateBookmark i =>
        l = [] \/ l = [SelectById i] \/
        (l = [SelectById i; Update i] /\ In i (map id (table w)))
    | DeleteBookmark i => l = [] \/ l = [Delete i]
    end.
Proof.
  assert (Routed : forall q,
            let (r, w') := handle isURL e q w in
            exists l,
              journal w' = journal w ++ l /\
              (l = [] <-> status r = 400 \/ r = internal_error) /\
              match q with
              | POST _ => l = [] \/ l = [Insert (uuid e)]
              | GET_all => l = [SelectAll]
              | GET i => l = [SelectById i]
              | PUT i _ =>
                  l = [] \/ l = [SelectById i] \/
                  (l = [SelectById i; Update i] /\ In i (map id (table w)))
              | DELETE i => l = [Delete i]
              end).
  { intros q. pose proof (handle_statements e q w) as H.
    pose proof (handle_not_internal e q w) as N.
    destruct (handle isURL e q w) as [r w']. simpl in N.
    destruct H as [l [J [E Sh]]]. exists l.
    split; [ exact J | ]. split; [ | exact Sh ].
    split; [ intros L; left; now apply E | ].
    intros [S | I]; [ now apply E | contradiction ]. }
  destruct p as [o | | ].
  - destruct rt as [ | | i | i | i]; simpl.
    + exact (Routed (POST o)).
    + pose proof (Routed GET_all) as H. simpl in H.
      destruct (get_bookmarks e w) as [r w'].
      destruct H as [l [J [E Sh]]]. exists l. auto.
    + pose proof (Routed (GET i)) as H. simpl in H.
      destruct (get_bookmark e i w) as [r w'].
      destruct H as [l [J [E Sh]]]. exists l. auto.
    + exact (Routed (PUT i o)).
    + pose proof (Routed (DELETE i)) as H. simpl in H.
      destruct (delete_bookmark e i w) as [r w'].
      destruct H as [l [J [E Sh]]]. exists l. auto.
  - destruct rt as [ | | i | i | i]; simpl.
    + unfold create_errors, chain. simpl.
      destruct (isURL ""); simpl; exists [];
        rewrite app_nil_r; intuition.
    + pose proof (Routed GET_all) as H. simpl in H.
      destruct (get_bookmarks e w) as [r w'].
      destruct H as [l [J [E Sh]]]. exists l. auto.
    + pose proof (Routed (GET i)) as H. simpl in H.
      destruct (get_bookmark e i w) as [r w'].
      destruct H as [l [J [E Sh]]]. exists l. auto.
    + exists []. rewrite app_nil_r. intuition.
    + pose proof (Routed (DELETE i)) as H. simpl in H.
      destruct (delete_bookmark e i w) as [r w'].
      destruct H as [l [J [E Sh]]]. exists l. auto.
  - simpl. exists []. rewrite app_nil_r.
    destruct rt; intuition.
Qed.

(** ** Driver faults and constraint violations *)

(** X4 — When the driver fails a request's first statement, the request
    is answered 500 with the generic message [Database error] unless
    validation had already answered 400, and the table is unchanged;
    the same holds when an update's lookup succeeds and its write is
    failed. *)
Theorem handle_fault (e : env) (q : request) (w : world) :
  let (r, w') := handle isURL e q w in
  (fault1 e = true ->
   (r = mkResponse 500 (Message "Database error") \/ status r = 400) /\
   table w' = table w) /\
  (fault1 e = false -> fault2 e = true ->
   forall i b, q = PUT i b -> update_errors isURL b = [] ->
   In i (map id (table w)) ->
   r = mkResponse 500 (Message "Database error") /\ table w' = table w).
Proof.
  destruct q as [b | | i | i b | i]; simpl.
  - post_branches e b w; simpl; split; try discriminate;
      auto; intros; discriminate.
  - rewrite get_bookmarks_run.
    split; [ intros ->; auto | intros; discriminate ].
  - rewrite get_run. split; [ intros ->; auto | intros; discriminate ].
  - destruct (put_cases e i b w) as [V | V F | V F Fd | r V F Fd F2
                                    | r u t V F Fd F2 Bu Bt]; simpl; split.
    + auto.
    + intros _ _ i' b' E V' Hin. injection E as <- <-. contradiction.
    + auto.
    + intros F'. congruence.
    + intros F'. congruence.
    + intros _ _ i' b' E V' Hin. injection E as <- <-.
      apply find_none_has_id in Fd. contradiction.
    + intros F'. congruence.
    + auto.
    + intros F'. congruence.
    + intros _ F2'. congruence.
  - rewrite delete_run_any.
    destruct (fault1 e); simpl; split; auto; intros; discriminate.
Qed.

(** X5 — A create whose generated identifier is already in the table
    never inserts: the table is unchanged, and when the body is valid
    the answer is 500 [Database error] (the PRIMARY KEY violation is
    reported like any other storage fault). *)
Theorem post_bookmarks_duplicate_id (e : env) (b : js_object) (w : world) :
  In (uuid e) (map id (table w)) ->
  let (r, w') := post_bookmarks isURL e b w in
  table w' = table w /\
  status r <> 201 /\
  (create_errors isURL b = [] ->
   r = mkResponse 500 (Message "Database error")).
Proof.
  intros Hin. apply existsb_has_id in Hin.
  post_branches e b w; simpl;
    repeat split; auto; try discriminate; congruence.
Qed.

(** ** Reading back *)

(** X6 — With a working driver, the list answers 200 with one record per
    row, in insertion order (the empty array for the empty table), and
    on a table without duplicate identifiers the records listed are
    exactly the records get-by-id answers with. *)
Theorem get_bookmarks_agrees_with_get (e e' : env) (w : world) :
  fault1 e = false ->
  fault1 e' = false ->
  NoDup (map id (table w)) ->
  exists os,
    fst (get_bookmarks e w) = mkResponse 200 (JsonArray os) /\
    os = map row_object (table w) /\
    (table w = [] -> os = []) /\
    (forall o, In o os <->
       exists i, fst (get_bookmark e' i w) = mkResponse 200 (Json o)).
Proof.
  intros F F' Hnd. exists (map row_object (table w)).
  rewrite get_bookmarks_run, F. simpl.
  repeat split; try (intros ->; reflexivity).
  - intros Ho. apply in_map_iff in Ho. destruct Ho as [x [<- Hx]].
    exists (id x). rewrite get_run, F'. simpl.
    now rewrite (find_unique _ _ Hnd Hx).
  - intros [i G]. rewrite get_run, F' in G. simpl in G.
    destruct (find (has_id i) (table w)) as [x | ] eqn:Fd;
      [ | discriminate ].
    injection G as <-. apply in_map. now apply (find_has_id i).
Qed.

(** X7 — Create, then read: a body whose url is a string the syntax
    check accepts and whose title is a non-empty string, served with a
    working driver and an unused identifier, is answered 201, and a
    get-by-id of the generated identifier then answers 200 with that
    identifier, url, title and time, and with a description that is
    null when the body's is falsy; when the body's description is a
    non-empty string, the description read is that string and the
    record read is the very record the create answered with. *)
Theorem create_then_get (e e' : env) (b : js_object) (u t : string)
    (w : world) :
  obj_get "url" b = VStr u ->
  obj_get "title" b = VStr t ->
  isURL u = true ->
  t <> "" ->
  fault1 e = false ->
  ~ In (uuid e) (map id (table w)) ->
  fault1 e' = false ->
  let created := post_bookmarks isURL e b w in
  let read := fst (get_bookmark e' (uuid e) (snd created)) in
  status (fst created) = 201 /\
  exists stored,
    read = mkResponse 200
             (Json [ ("id", VStr (uuid e));
                     ("url", VStr u);
                     ("title", VStr t);
                     ("description", stored);
                     ("created_at", VStr (now e)) ]) /\
    (truthy (obj_get "description" b) = false -> stored = VNull) /\
    (forall d, obj_get "description" b = VStr d -> d <> "" ->
               stored = VStr d /\ payload read = payload (fst created)).
Proof.
  intros U T Hu Ht F Fr F' created read.
  assert (V : create_errors isURL b = []).
  { apply create_errors_nil. rewrite U, T. simpl. split; [ exact Hu | ].
    now apply notEmpty_true. }
  assert (X : existsb (has_id (uuid e)) (table w) = false).
  { destruct (existsb _ _) eqn:X; [ | reflexivity ].
    apply existsb_has_id in X. contradiction. }
  assert (Run : created
                = (json 201 (created_record e b),
                   mkWorld
                     (table w ++
                      [mkRow (uuid e) u t
                         (bind_text (js_or (obj_get "description" b) VNull))
                         (now e)])
                     (journal w ++ [Insert (uuid e)]))).
  { unfold created. rewrite post_run, V. cbv zeta.
    rewrite F, U, T. simpl. rewrite X. reflexivity. }
  assert (R : read
              = mkResponse 200
                  (Json [ ("id", VStr (uuid e));
                          ("url", VStr u);
                          ("title", VStr t);
                          ("description",
                            of_sql (bind_text
                                      (js_or (obj_get "description" b) VNull)));
                          ("created_at", VStr (now e)) ])).
  { unfold read. rewrite Run, get_run, F'. cbn [snd fst table].
    rewrite find_app_fresh; [ reflexivity | exact Fr | reflexivity ]. }
  split; [ rewrite Run; reflexivity | ].
  exists (of_sql (bind_text (js_or (obj_get "description" b) VNull))).
  split; [ exact R | ]. split.
  - intros Tr. unfold js_or. rewrite Tr. reflexivity.
  - intros d D Nd. rewrite R, Run.
    destruct (d =? "") eqn:E; [ apply String.eqb_eq in E; contradiction | ].
    unfold json, created_record, json_of_object, js_or. cbn [fst].
    rewrite U, T, D. simpl. rewrite E. split; reflexivity.
Qed.

(** X8 — Create, then delete: after a create that answered 201, a delete
    of the generated identifier (served by a working driver) answers 204
    and gives back the table as it was before the create. *)
Theorem create_then_delete (e e' : env) (b : js_object) (w : world) :
  status (fst (post_bookmarks isURL e b w)) = 201 ->
  fault1 e' = false ->
  let w1 := snd (post_bookmarks isURL e b w) in
  let (r, w2) := delete_bookmark e' (uuid e) w1 in
  r = mkResponse 204 Empty /\ table w2 = table w.
Proof.
  intros St F'. revert St.
  post_branches e b w; simpl; try discriminate. intros _.
  assert (Fr : ~ In (uuid e) (map id (table w))).
  { intros Hin. apply existsb_has_id in Hin. congruence. }
  rewrite delete_run_any, F'. cbn [table].
  rewrite !filter_app, (filter_nothing_out _ _ Fr). simpl.
  unfold has_id at 2 3. simpl. rewrite String.eqb_refl. simpl.
  rewrite length_app, app_nil_r. simpl.
  rewrite Nat.add_comm. simpl. split; reflexivity.
Qed.

(** ** Updates *)

Lemma merged_stable (b : js_object) (r : row) (u t : string) :
  bind_text (merged "url" b r) = Some u ->
  bind_text (merged "title" b r) = Some t ->
  let r' := mkRow (id r) u t (bind_text (merged "description" b r))
              (created_at r) in
  merged "url" b r' = merged "url" b r /\
  merged "title" b r' = merged "title" b r /\
  merged "description" b r' = merged "description" b r.
Proof.
  unfold merged, js_coalesce. simpl. intros Bu Bt.
  destruct (nullish (obj_get "url" b));
    destruct (nullish (obj_get "title" b));
    destruct (nullish (obj_get "description" b));
    simpl in *; rewrite ?bind_text_of_sql;
    repeat split; congruence.
Qed.

(** X9 — Updates are idempotent: after an update that answered 200, the
    same update of the same identifier leaves the table as the first one
    left it, and, served by a working driver, answers exactly what the
    first one answered. *)
Theorem put_bookmark_idempotent (e e' : env) (i : string) (b : js_object)
    (w : world) :
  status (fst (put_bookmark isURL e i b w)) = 200 ->
  let first := put_bookmark isURL e i b w in
  let second := put_bookmark isURL e' i b (snd first) in
  table (snd second) = table (snd first) /\
  (fault1 e' = false -> fault2 e' = false -> fst second = fst first).
Proof.
  intros St first second. unfold second, first. revert St.
  destruct (put_cases e i b w) as [V | V F | V F Fd | r V F Fd F2
                                  | r u t V F Fd F2 Bu Bt];
    simpl; try discriminate. intros _.
  set (d := bind_text (merged "description" b r)).
  set (w1 := mkWorld (map (set_columns i u t d) (table w)) _).
  assert (Fd1 : find (has_id i) (table w1)
                = Some (mkRow (id r) u t d (created_at r)))
    by (exact (find_set_columns _ _ _ _ _ _ Fd)).
  destruct (merged_stable b r u t Bu Bt) as [Mu [Mt Md]]. fold d in Mu, Mt, Md.
  destruct (put_cases e' i b w1) as [V' | V' F' | V' F' Fd' | r' V' F' Fd' F2'
                                    | r' u' t' V' F' Fd' F2' Bu' Bt'];
    simpl; try contradiction; try (split; [ reflexivity | congruence ]).
  rewrite Fd1 in Fd'. injection Fd' as <-.
  rewrite Mu, Bu in Bu'. rewrite Mt, Bt in Bt'.
  injection Bu' as <-. injection Bt' as <-.
  rewrite Mu, Mt, Md. fold d. split; [ | reflexivity ].
  rewrite map_map. apply map_ext. intros x. apply set_columns_twice.
Qed.

(** X10 — An update that supplies none of the fields (url and title
    absent, description absent or null) of a row that exists, on a table
    without duplicate identifiers and with a working driver, answers 200
    with the row as it is and leaves the table unchanged. *)
Theorem put_bookmark_nothing_supplied (e : env) (i : string) (b : js_object)
    (w : world) (r : row) :
  NoDup (map id (table w)) ->
  fault1 e = false ->
  fault2 e = false ->
  find (has_id i) (table w) = Some r ->
  obj_get "url" b = VUndefined ->
  obj_get "title" b = VUndefined ->
  nullish (obj_get "description" b) = true ->
  let (res, w') := put_bookmark isURL e i b w in
  res = mkResponse 200 (Json (row_object r)) /\ table w' = table w.
Proof.
  intros Hnd F1 F2 Fd U T D.
  assert (V : update_errors isURL b = [])
    by (apply update_errors_nil; auto).
  destruct (put_found isURL e i b w r V F1 F2 Fd) as [u [t [Bu [Bt ->]]]].
  unfold merged, js_coalesce in *. rewrite U, T, D in *. simpl in *.
  injection Bu as <-. injection Bt as <-.
  rewrite bind_text_of_sql. split; [ reflexivity | ].
  now apply set_columns_same.
Qed.

(** X11 — Whatever its body and outcome, an update never adds, removes
    or reorders rows and never changes an identifier or a creation
    time; a row whose identifier is not the one addressed stays as it
    is, at its position. *)
Theorem put_bookmark_frame (e : env) (i : string) (b : js_object)
    (w : world) :
  let w' := snd (put_bookmark isURL e i b w) in
  map id (table w') = map id (table w) /\
  map created_at (table w') = map created_at (table w) /\
  (forall k x, nth_error (table w) k = Some x -> id x <> i ->
               nth_error (table w') k = Some x).
Proof.
  destruct (put_cases e i b w) as [V | V F | V F Fd | r V F Fd F2
                                  | r u t V F Fd F2 Bu Bt];
    simpl; auto.
  split; [ apply map_id_set_columns | ]. split.
  - rewrite map_map. apply map_ext. intros x. unfold set_columns.
    destruct (has_id i x); reflexivity.
  - intros k x Hk N. rewrite nth_error_map, Hk. simpl. f_equal.
    unfold set_columns, has_id.
    destruct (id x =? i) eqn:E; [ | reflexivity ].
    apply String.eqb_eq in E. contradiction.
Qed.

(** X12 — Update, then read: when every field the body supplies is null
    or a string, a get-by-id served right after an update that answered
    200 answers with exactly the response of the update. *)
Theorem put_then_get (e e' : env) (i : string) (b : js_object) (w : world) :
  status (fst (put_bookmark isURL e i b w)) = 200 ->
  fault1 e' = false ->
  (forall f, In f ["url"; "title"; "description"] ->
     nullish (obj_get f b) = true \/ exists s, obj_get f b = VStr s) ->
  let updated := put_bookmark isURL e i b w in
  fst (get_bookmark e' i (snd updated)) = fst updated.
Proof.
  intros St F' Hb updated. unfold updated. revert St.
  destruct (put_cases e i b w) as [V | V F | V F Fd | r V F Fd F2
                                  | r u t V F Fd F2 Bu Bt];
    simpl; try discriminate. intros _.
  rewrite get_run, F'. cbn [fst table].
  rewrite (find_set_columns _ _ _ _ _ _ Fd). unfold row_object. simpl.
  assert (Mu : merged "url" b r = VStr u).
  { unfold merged, js_coalesce in *.
    destruct (Hb "url") as [N | [s E]]; [ simpl; auto | | ].
    - rewrite N in *. simpl in *. congruence.
    - rewrite E in *. simpl in *. congruence. }
  assert (Mt : merged "title" b r = VStr t).
  { unfold merged, js_coalesce in *.
    destruct (Hb "title") as [N | [s E]]; [ simpl; auto | | ].
    - rewrite N in *. simpl in *. congruence.
    - rewrite E in *. simpl in *. congruence. }
  assert (Md : of_sql (bind_text (merged "description" b r))
               = merged "description" b r).
  { apply of_sql_bind_text. unfold merged, js_coalesce.
    destruct (Hb "description") as [N | [s E]]; [ simpl; auto | | ].
    - rewrite N. simpl.
      destruct (description r); simpl; [ right; eauto | now left ].
    - rewrite E. simpl. right. eauto. }
  rewrite Mu, Mt, Md. reflexivity.
Qed.

(** ** What a create stores *)

Lemma truthy_binds (v : value) :
  truthy v = true -> exists s, bind_text v = Some s /\ s <> "".
Proof.
  destruct v as [ | | c | n | s]; simpl; intros H; try discriminate.
  - subst c. eexists. split; [ reflexivity | discriminate ].
  - eexists. split; [ reflexivity | ].
    destruct (int32 n); [ apply string_of_Z_not_empty | ].
    destruct (string_of_Z n); discriminate.
  - exists s. split; [ reflexivity | ].
    apply negb_true_iff in H. now apply String.eqb_neq.
Qed.

(** X13 — After a create that answered 201, the table is the old one
    with one row appended; the row has the generated identifier and
    time, and the body's url and title when these are strings; its
    description is NULL exactly when the body's description is falsy
    (absent, null, false, 0 or the empty string), is never the empty
    text, and is the body's string when that is not empty. *)
Theorem post_bookmarks_stores (e : env) (b : js_object) (w : world) :
  status (fst (post_bookmarks isURL e b w)) = 201 ->
  exists r,
    table (snd (post_bookmarks isURL e b w)) = table w ++ [r] /\
    id r = uuid e /\
    created_at r = now e /\
    (forall u, obj_get "url" b = VStr u -> url r = u) /\
    (forall t, obj_get "title" b = VStr t -> title r = t) /\
    (description r = None <-> truthy (obj_get "description" b) = false) /\
    description r <> Some "" /\
    (forall s, obj_get "description" b = VStr s -> s <> "" ->
               description r = Some s).
Proof.
  post_branches e b w; simpl; try discriminate. intros _.
  eexists. split; [ reflexivity | ]. simpl.
  do 2 (split; [ reflexivity | ]).
  split; [ intros u E; rewrite E in Bu; simpl in Bu; congruence | ].
  split; [ intros t E; rewrite E in Bt; simpl in Bt; congruence | ].
  unfold js_or. destruct (truthy (obj_get "description" b)) eqn:Tr.
  - destruct (truthy_binds _ Tr) as [sd [Bs Ns]]. rewrite Bs.
    split; [ split; discriminate | ]. split; [ congruence | ].
    intros s' E _. rewrite E in Bs. simpl in Bs. congruence.
  - simpl. split; [ tauto | ]. split; [ discriminate | ].
    intros s' E Ns. rewrite E in Tr. simpl in Tr.
    apply negb_false_iff, String.eqb_eq in Tr. contradiction.
Qed.

(** X14 — Row counts on a table without duplicate identifiers: a request
    answered 201 adds exactly one row, a request answered 204 removes
    exactly one, and every other request leaves the number of rows as
    it was. *)
Theorem handle_row_count (e : env) (q : request) (w : world) :
  NoDup (map id (table w)) ->
  let (r, w') := handle isURL e q w in
  (status r = 201 -> length (table w') = S (length (table w))) /\
  (status r = 204 -> S (length (table w')) = length (table w)) /\
  (status r <> 201 -> status r <> 204 ->
   length (table w') = length (table w)).
Proof.
  intros Hnd. destruct q as [b | | i | i b | i]; simpl.
  - post_branches e b w; simpl;
      repeat split; try discriminate; try reflexivity; try contradiction.
    intros _. rewrite length_app. simpl. lia.
  - rewrite get_bookmarks_run. simpl.
    destruct (fault1 e); simpl; repeat split; discriminate.
  - rewrite get_run. simpl. destruct (fault1 e); simpl;
      [ repeat split; discriminate | ].
    destruct (find (has_id i) (table w)); simpl; repeat split; discriminate.
  - destruct (put_cases e i b w); simpl;
      repeat split; try discriminate; try reflexivity.
    intros _ _. apply length_map.
  - rewrite delete_run_any. destruct (fault1 e); simpl;
      [ repeat split; discriminate | ].
    pose proof (filter_split_length i (table w)) as L.
    pose proof (filter_has_id_at_most_one i (table w) Hnd) as M.
    destruct (Nat.eqb (length (filter (has_id i) (table w))) 0) eqn:Z;
      simpl; repeat split; try discriminate; try contradiction.
    + intros _ _. apply Nat.eqb_eq in Z. lia.
    + intros _. apply Nat.eqb_neq in Z. lia.
Qed.

(** ** Validation and isolation *)

(** X15 — The two validation chains compared, for a syntax check that
    rejects the empty string: a body passes the create chains exactly
    when it passes the update chains and has both a url and a title; so
    every body a create accepts an update accepts too. *)
Theorem create_errors_vs_update_errors (b : js_object) :
  isURL "" = false ->
  (create_errors isURL b = [] <->
   update_errors isURL b = [] /\
   obj_get "url" b <> VUndefined /\ obj_get "title" b <> VUndefined).
Proof.
  intros Empty. rewrite create_errors_nil, update_errors_nil. split.
  - intros [U T]. repeat split; auto.
    + intros E. rewrite E in U. simpl in U. congruence.
    + intros E. rewrite E in T. discriminate.
  - intros [[[U | U] [T | T]] [Nu Nt]]; try contradiction. auto.
Qed.

Lemma find_other_set_columns (i j u t : string) (d : sqlval) (l : list row) :
  j <> i ->
  find (has_id j) (map (set_columns i u t d) l) = find (has_id j) l.
Proof.
  intros N. induction l as [ | x l IH]; simpl; [ reflexivity | ].
  assert (H : has_id j (set_columns i u t d x) = has_id j x)
    by (unfold set_columns; destruct (has_id i x); reflexivity).
  rewrite H. destruct (has_id j x) eqn:Ej; [ | exact IH ].
  f_equal. unfold set_columns.
  destruct (has_id i x) eqn:Ei; [ | reflexivity ].
  unfold has_id in *. apply String.eqb_eq in Ej, Ei. congruence.
Qed.

Lemma find_other_filter (i j : string) (l : list row) :
  j <> i ->
  find (has_id j) (filter (fun r => negb (has_id i r)) l)
  = find (has_id j) l.
Proof.
  intros N. induction l as [ | x l IH]; simpl; [ reflexivity | ].
  destruct (has_id i x) eqn:Ei; simpl.
  - destruct (has_id j x) eqn:Ej; [ | exact IH ].
    unfold has_id in *. apply String.eqb_eq in Ej, Ei. congruence.
  - destruct (has_id j x); [ reflexivity | exact IH ].
Qed.

Lemma find_other_app (j : string) (l : list row) (r : row) :
  j <> id r -> find (has_id j) (l ++ [r]) = find (has_id j) l.
Proof.
  intros N. induction l as [ | x l IH]; simpl.
  - unfold has_id. destruct (id r =? j) eqn:E; [ | reflexivity ].
    apply String.eqb_eq in E. congruence.
  - destruct (has_id j x); [ reflexivity | exact IH ].
Qed.

(** X16 — Isolation between identifiers: whatever a request does, a
    get-by-id of an identifier other than the one the request addresses
    (the generated one for a create, the path one for an update or a
    delete) answers after it what it answered before it. *)
Theorem handle_isolation (e e' : env) (q : request) (w : world) (j : string) :
  match q with
  | POST _ => j <> uuid e
  | PUT i _ | DELETE i => j <> i
  | GET_all | GET _ => True
  end ->
  fst (get_bookmark e' j (snd (handle isURL e q w)))
  = fst (get_bookmark e' j w).
Proof.
  intros N. rewrite !get_run. cbn [fst]. destruct (fault1 e'); [ reflexivity | ].
  assert (Fd : find (has_id j) (table (snd (handle isURL e q w)))
               = find (has_id j) (table w));
    [ | now rewrite Fd ].
  destruct q as [b | | i | i b | i]; simpl.
  - post_branches e b w; simpl; try reflexivity.
    now apply find_other_app.
  - now rewrite get_bookmarks_run.
  - now rewrite get_run.
  - destruct (put_cases e i b w); simpl; try reflexivity.
    now apply find_other_set_columns.
  - rewrite delete_run_any. destruct (fault1 e); simpl; [ reflexivity | ].
    now apply find_other_filter.
Qed.

End Further.

(** * Worked requests for the further properties *)

Lemma handle_error_keeps_table_witness :
  let run := handle http_prefixed (quiet "" "") (PUT "zz" good_body) one_row in
  400 <= status (fst run) /\ table (snd run) = table one_row.
Proof.
  intros run.
  assert (H : 400 <= status (fst run)) by (apply Nat.leb_le; reflexivity).
  split; [ exact H | ].
  pose proof (handle_error_keeps_table http_prefixed (quiet "" "")
                (PUT "zz" good_body) one_row) as T.
  fold run in T. destruct run as [r w']. destruct T as [T _]. exact (T H).
Defined.

Lemma app_statements_witness :
  let run := app http_prefixed (quiet "" "") (UpdateBookmark "b0") NoBody
               one_row in
  fst run = mkResponse 500 (Message "Internal Server Error") /\
  journal (snd run) = journal one_row.
Proof.
  intros run.
  assert (H : fst run = mkResponse 500 (Message "Internal Server Error"))
    by reflexivity.
  split; [ exact H | ].
  pose proof (app_statements http_prefixed (quiet "" "")
                (UpdateBookmark "b0") NoBody one_row) as T.
  fold run in T. destruct run as [r w'].
  destruct T as [l [J [[_ E] _]]]. simpl in *.
  rewrite J, (E (or_intror H)). reflexivity.
Defined.

Lemma handle_fault_witness :
  let e := mkEnv "b1" "2024-01-01T00:00:00.000Z" true false in
  let run := handle http_prefixed e (POST good_body) one_row in
  fault1 e = true /\
  (fst run = mkResponse 500 (Message "Database error") \/
   status (fst run) = 400) /\
  table (snd run) = table one_row.
Proof.
  intros e run. split; [ reflexivity | ].
  pose proof (handle_fault http_prefixed e (POST good_body) one_row) as T.
  fold run in T. destruct run as [r w'].
  destruct T as [T _]. exact (T eq_refl).
Defined.

Lemma post_bookmarks_duplicate_id_witness :
  let e := quiet "b0" "2024-01-01T00:00:00.000Z" in
  let run := post_bookmarks http_prefixed e good_body one_row in
  In (uuid e) (map id (table one_row)) /\
  create_errors http_prefixed good_body = [] /\
  fst run = mkResponse 500 (Message "Database error") /\
  table (snd run) = table one_row.
Proof.
  intros e run.
  assert (I : In (uuid e) (map id (table one_row))) by (simpl; auto).
  split; [ exact I | ]. split; [ reflexivity | ].
  pose proof (post_bookmarks_duplicate_id http_prefixed e good_body one_row I)
    as T.
  fold run in T. destruct run as [r w'].
  destruct T as [Tb [_ R]]. split; [ exact (R eq_refl) | exact Tb ].
Defined.

Lemma two_rows_distinct : NoDup (map id (table two_rows)).
Proof.
  simpl. constructor.
  - intros [H | []]. discriminate.
  - constructor; [ intros [] | constructor ].
Defined.

Lemma get_bookmarks_agrees_with_get_witness :
  let e := quiet "" "" in
  fault1 e = false /\
  NoDup (map id (table two_rows)) /\
  exists os,
    fst (get_bookmarks e two_rows) = mkResponse 200 (JsonArray os) /\
    length os = 2 /\
    forall o, In o os ->
      exists i, fst (get_bookmark e i two_rows) = mkResponse 200 (Json o).
Proof.
  intros e. split; [ reflexivity | ]. split; [ exact two_rows_distinct | ].
  destruct (get_bookmarks_agrees_with_get e e two_rows eq_refl eq_refl
              two_rows_distinct) as [os [R [E [_ A]]]].
  exists os. split; [ exact R | ]. split; [ now rewrite E | ].
  intros o Ho. now apply A.
Defined.

Lemma create_then_get_witness :
  let e := quiet "b1" "2024-01-01T00:00:00.000Z" in
  let created := post_bookmarks http_prefixed e full_body one_row in
  let read := fst (get_bookmark (quiet "" "") "b1" (snd created)) in
  obj_get "url" full_body = VStr "http://a.example" /\
  obj_get "title" full_body = VStr "A" /\
  http_prefixed "http://a.example" = true /\
  "A" <> "" /\
  ~ In (uuid e) (map id (table one_row)) /\
  status (fst created) = 201 /\
  status read = 200 /\
  payload read = payload (fst created).
Proof.
  intros e created read.
  assert (Nt : "A" <> "") by discriminate.
  assert (Fr : ~ In (uuid e) (map id (table one_row)))
    by (simpl; intros [X | []]; discriminate).
  do 5 (split; [ reflexivity || assumption | ]).
  destruct (create_then_get http_prefixed e (quiet "" "") full_body
              "http://a.example" "A" one_row eq_refl eq_refl eq_refl Nt
              eq_refl Fr eq_refl) as [S [stored [R [_ P]]]].
  split; [ exact S | ].
  split; [ exact (f_equal status R) | ].
  apply (P "notes"); [ reflexivity | discriminate ].
Defined.

Lemma create_then_delete_witness :
  let e := quiet "b1" "2024-01-01T00:00:00.000Z" in
  let created := post_bookmarks http_prefixed e good_body one_row in
  let deleted := delete_bookmark (quiet "" "") "b1" (snd created) in
  status (fst created) = 201 /\
  fst deleted = mkResponse 204 Empty /\
  table (snd deleted) = table one_row.
Proof.
  intros e created deleted.
  assert (S : status (fst created) = 201) by reflexivity.
  split; [ exact S | ].
  pose proof (create_then_delete http_prefixed e (quiet "" "") good_body
                one_row S eq_refl) as T.
  cbv zeta in T. fold created in T. change (uuid e) with "b1" in T.
  fold deleted in T. destruct deleted as [r w2]. exact T.
Defined.

Lemma put_bookmark_idempotent_witness :
  let e := quiet "" "" in
  let b := [("title", VStr "Renamed"); ("description", VNum 5)] in
  let first := put_bookmark http_prefixed e "b0" b two_rows in
  let second := put_bookmark http_prefixed e "b0" b (snd first) in
  status (fst first) = 200 /\
  table (snd second) = table (snd first) /\
  fst second = fst first.
Proof.
  intros e b first second.
  assert (S : status (fst first) = 200) by reflexivity.
  split; [ exact S | ].
  destruct (put_bookmark_idempotent http_prefixed e e "b0" b two_rows S)
    as [Tb R].
  split; [ exact Tb | exact (R eq_refl eq_refl) ].
Defined.

Lemma put_bookmark_nothing_supplied_witness :
  let e := quiet "" "" in
  let b := [("description", VNull); ("tags", VStr "x")] in
  let run := put_bookmark http_prefixed e "b0" b two_rows in
  NoDup (map id (table two_rows)) /\
  find (has_id "b0") (table two_rows) = Some old_row /\
  obj_get "url" b = VUndefined /\
  obj_get "title" b = VUndefined /\
  nullish (obj_get "description" b) = true /\
  fst run = mkResponse 200 (Json (row_object old_row)) /\
  table (snd run) = table two_rows.
Proof.
  intros e b run. split; [ exact two_rows_distinct | ].
  do 4 (split; [ reflexivity | ]).
  pose proof (put_bookmark_nothing_supplied http_prefixed e "b0" b two_rows
                old_row two_rows_distinct eq_refl eq_refl eq_refl eq_refl
                eq_refl eq_refl) as T.
  fold run in T. destruct run as [r w']. exact T.
Defined.

Lemma put_bookmark_frame_witness :
  let b := [("title", VStr "Renamed")] in
  let w' := snd (put_bookmark http_prefixed (quiet "" "") "b1" b two_rows) in
  nth_error (table two_rows) 0 = Some old_row /\
  id old_row <> "b1" /\
  nth_error (table w') 0 = Some old_row.
Proof.
  intros b w'.
  assert (N : id old_row <> "b1") by discriminate.
  split; [ reflexivity | ]. split; [ exact N | ].
  destruct (put_bookmark_frame http_prefixed (quiet "" "") "b1" b two_rows)
    as [_ [_ T]].
  exact (T 0 old_row eq_refl N).
Defined.

Lemma put_then_get_witness :
  let e := quiet "" "" in
  let b := [("url", VStr "https://moved.example"); ("description", VNull)] in
  let updated := put_bookmark http_prefixed e "b0" b two_rows in
  status (fst updated) = 200 /\
  (forall f, In f ["url"; "title"; "description"] ->
     nullish (obj_get f b) = true \/ exists s, obj_get f b = VStr s) /\
  fst (get_bookmark e "b0" (snd updated)) = fst updated.
Proof.
  intros e b updated.
  assert (S : status (fst updated) = 200) by reflexivity.
  assert (Hb : forall f, In f ["url"; "title"; "description"] ->
                 nullish (obj_get f b) = true \/
                 exists s, obj_get f b = VStr s).
  { intros f [<- | [<- | [<- | []]]]; simpl; eauto. }
  split; [ exact S | ]. split; [ exact Hb | ].
  exact (put_then_get http_prefixed e e "b0" b two_rows S eq_refl Hb).
Defined.

Lemma post_bookmarks_stores_witness :
  let e := quiet "b2" "2024-03-03T00:00:00.000Z" in
  let b := good_body ++ [("description", VNum 0)] in
  let run := post_bookmarks http_prefixed e b two_rows in
  status (fst run) = 201 /\
  exists r, table (snd run) = table two_rows ++ [r] /\ description r = None.
Proof.
  intros e b run.
  assert (S : status (fst run) = 201) by reflexivity.
  split; [ exact S | ].
  destruct (post_bookmarks_stores http_prefixed e b two_rows S)
    as [r [Tb [_ [_ [_ [_ [[_ D] _]]]]]]].
  exists r. split; [ exact Tb | exact (D eq_refl) ].
Defined.

Lemma handle_row_count_witness :
  let run := handle http_prefixed (quiet "" "") (DELETE "b0") two_rows in
  NoDup (map id (table two_rows)) /\
  status (fst run) = 204 /\
  S (length (table (snd run))) = length (table two_rows).
Proof.
  intros run. split; [ exact two_rows_distinct | ].
  assert (St : status (fst run) = 204) by reflexivity.
  split; [ exact St | ].
  pose proof (handle_row_count http_prefixed (quiet "" "") (DELETE "b0")
                two_rows two_rows_distinct) as T.
  fold run in T. destruct run as [r w'].
  destruct T as [_ [T _]]. exact (T St).
Defined.

Lemma create_errors_vs_update_errors_witness :
  http_prefixed "" = false /\
  create_errors http_prefixed good_body = [] /\
  update_errors http_prefixed good_body = [].
Proof.
  split; [ reflexivity | ].
  assert (C : create_errors http_prefixed good_body = []) by reflexivity.
  split; [ exact C | ].
  exact (proj1 (proj1 (create_errors_vs_update_errors http_prefixed good_body
                         eq_refl) C)).
Defined.

Lemma handle_isolation_witness :
  let e := quiet "" "" in
  "b0" <> "b1" /\
  fst (get_bookmark e "b0" (snd (handle http_prefixed e (DELETE "b1") two_rows)))
  = fst (get_bookmark e "b0" two_rows).
Proof.
  intros e.
  assert (N : "b0" <> "b1") by discriminate.
  split; [ exact N | ].
  exact (handle_isolation http_prefixed e e (DELETE "b1") two_rows "b0" N).
Defined.
